(** * SailPoint pull-request report: the fetch engine, embedded and verified

    A shallow embedding of [api.py], [github.py] and [pull_request.py]:
    the authenticated transport, the rate-limit guard, the paginated
    traversal with its date filter, and the pull-request record.

    Python values are modelled as follows.
    - [str] is [string]; comparison is lexicographic on the bytes, which
      for UTF-8 text is Python's code-point order.
    - [int] is [Z]; [float] is the kernel's binary64 [float].
    - an exception is a constructor of [exn]; a function that can raise
      returns [result].
    - the network, the clock and the terminal are a [World] threaded
      through the [IO] monad: the transport answers from a script of
      responses, every request sent is logged. *)

From Stdlib Require Import ZArith String Ascii List Bool Lia.
From Corelib Require Import PrimInt63 PrimFloat.
From stdpp Require Import base option gmap strings list.

Local Open Scope string_scope.
Local Open Scope Z_scope.

(** ** Python runtime *)

Module Py.

Inductive exn : Set :=
| AttributeError
| TypeError
| ValueError
| IndexError
| KeyError
| JSONDecodeError
| NoApiToken
| NotImplemented
| GetPullRequestsError.

#[global] Instance exn_eq_dec : EqDecision exn.
Proof. solve_decision. Defined.

Inductive result (A : Type) : Type :=
| Ok (a : A)
| Raise (e : exn).
Arguments Ok {A} a.
Arguments Raise {A} e.

Definition bind {A B} (r : result A) (k : A -> result B) : result B :=
  match r with
  | Ok a => k a
  | Raise e => Raise e
  end.

(** [str.lower] on the ASCII letters; other bytes are kept. *)
Definition lower_ascii (c : ascii) : ascii :=
  let n := nat_of_ascii c in
  if ((65 <=? n)%nat && (n <=? 90)%nat)%bool then ascii_of_nat (n + 32) else c.

Fixpoint lower (s : string) : string :=
  match s with
  | EmptyString => EmptyString
  | String c s' => String (lower_ascii c) (lower s')
  end.

(** [a.startswith(p)] *)
Definition startswith (a p : string) : bool := String.prefix p a.

(** [a < b] and [a > b] on [str]. *)
Definition str_lt (a b : string) : bool := String.ltb a b.
Definition str_gt (a b : string) : bool := String.ltb b a.

(** Whitespace that [int] and [str.strip] drop. *)
Definition is_space (c : ascii) : bool :=
  let n := nat_of_ascii c in
  ((n =? 32)%nat || ((9 <=? n)%nat && (n <=? 13)%nat))%bool.

Fixpoint lstrip (s : string) : string :=
  match s with
  | String c s' => if is_space c then lstrip s' else s
  | EmptyString => EmptyString
  end.

Fixpoint rstrip (s : string) : string :=
  match s with
  | EmptyString => EmptyString
  | String c s' =>
      match rstrip s' with
      | EmptyString => if is_space c then EmptyString else String c EmptyString
      | t => String c t
      end
  end.

Definition strip (s : string) : string := rstrip (lstrip s).

Definition digit_of (c : ascii) : option Z :=
  let n := nat_of_ascii c in
  if ((48 <=? n)%nat && (n <=? 57)%nat)%bool then Some (Z.of_nat (n - 48)) else None.

(** Decimal digits, a single underscore allowed between two digits. *)
Fixpoint digits (after_digit : bool) (acc : Z) (s : string) : option Z :=
  match s with
  | EmptyString => if after_digit then Some acc else None
  | String c s' =>
      if Ascii.eqb c "_"%char
      then if after_digit then digits false acc s' else None
      else match digit_of c with
           | Some d => digits true (10 * acc + d) s'
           | None => None
           end
  end.

(** [int(s)] for a [str] in base 10. *)
Definition int_of_str (s : string) : result Z :=
  let t := strip s in
  let parsed :=
    match t with
    | String c r =>
        if Ascii.eqb c "-"%char then Z.opp <$> digits false 0 r
        else if Ascii.eqb c "+"%char then digits false 0 r
        else digits false 0 t
    | EmptyString => None
    end in
  match parsed with
  | Some z => Ok z
  | None => Raise ValueError
  end.

(** [str(n)] for a non-negative [int], least significant digit last. *)
Fixpoint str_of_pos_fuel (fuel : nat) (n : Z) (acc : string) : string :=
  match fuel with
  | O => acc
  | S fuel' =>
      let acc' := String (ascii_of_nat (48 + Z.to_nat (n mod 10))) acc in
      if n <? 10 then acc' else str_of_pos_fuel fuel' (n / 10) acc'
  end.

Definition str_of_int (n : Z) : string :=
  if n <? 0
  then String "-"%char (str_of_pos_fuel (S (Z.to_nat (Z.log2 (- n)))) (- n) EmptyString)
  else str_of_pos_fuel (S (Z.to_nat (Z.log2 n))) n EmptyString.

(** [s.rjust(w, c)] *)
Definition rjust (w : nat) (c : ascii) (s : string) : string :=
  String.concat EmptyString (repeat (String c EmptyString) (w - String.length s)) +:+ s.

(** JSON documents as [json.loads] returns them. *)
#[warnings="-register-all"]
Inductive json : Type :=
| JNull
| JBool (b : bool)
| JNum (z : Z)
| JStr (s : string)
| JList (l : list json)
| JObj (o : gmap string json).

(** [d.get(k)] on a decoded JSON value: only a [dict] has [get]. *)
Definition get (v : json) (k : string) : result json :=
  match v with
  | JObj o => Ok (default JNull (o !! k))
  | _ => Raise AttributeError
  end.

(** [v is None] *)
Definition is_none (v : json) : bool :=
  match v with
  | JNull => true
  | _ => false
  end.

End Py.

Import Py.

Notation "x <- r ;; k" := (Py.bind r (fun x => k))
  (at level 100, r at next level, right associativity, only parsing).

(** ** The world outside the program *)

(** [requests.structures.CaseInsensitiveDict]: the lower-cased name maps
    to the name as it was set and the value. *)
Abbreviation Headers := (gmap string (string * string)).

Definition h_get (h : Headers) (k : string) : option string :=
  snd <$> h !! lower k.

Definition h_update (h : Headers) (k v : string) : Headers :=
  <[lower k := (k, v)]> h.

(** The payload of a response: a JSON document, or bytes that do not
    decode as JSON ([BodyRaw ""] is the empty body). *)
Inductive Body : Type :=
| BodyJson (v : json)
| BodyRaw (s : string).

Record Response : Type := mkResponse {
  status_code : Z;
  headers : Headers;
  body : Body
}.

(** Truth value of [response.text]. *)
Definition text (r : Response) : bool :=
  match body r with
  | BodyJson _ => true
  | BodyRaw s => negb (String.eqb s "")
  end.

(** [response.json()] *)
Definition json_of (r : Response) : result json :=
  match body r with
  | BodyJson v => Ok v
  | BodyRaw _ => Raise JSONDecodeError
  end.

(** Query parameters: a [dict] in insertion order, [int] and [str] values. *)
Inductive pval : Set :=
| PInt (z : Z)
| PStr (s : string).

Abbreviation Params := (list (string * pval)).

Fixpoint dict_get (d : Params) (k : string) : option pval :=
  match d with
  | [] => None
  | (k', v) :: d' => if String.eqb k' k then Some v else dict_get d' k
  end.

(** [d[k] = v]: an existing key keeps its place. *)
Fixpoint dict_set (d : Params) (k : string) (v : pval) : Params :=
  match d with
  | [] => [(k, v)]
  | (k', v') :: d' =>
      if String.eqb k' k then (k', v) :: d' else (k', v') :: dict_set d' k v
  end.

Definition str_of_pval (v : pval) : string :=
  match v with
  | PInt z => str_of_int z
  | PStr s => s
  end.

(** What [requests.get(url, data=, headers=, params=)] puts on the wire;
    the URL is kept as the two arguments of [urljoin]. *)
Record Request : Type := mkRequest {
  req_verb : string;
  req_base : string;
  req_path : string;
  req_data : option string;
  req_headers : Headers;
  req_params : Params
}.

(** What the program prints, kept as data: the dump of a JSON body, the
    debug line of a request (verb, the two arguments of [urljoin], the
    argument string), the rate-limit notice, and the page announcement. *)
Inductive printed : Type :=
| PrJson (v : json)
| PrRequest (fname base path args : string)
| PrRateLimit (sleep_time : Z)
| PrPage (page per_page : option pval).

(** Header dictionaries are mutable objects: they live in [store] and
    are named by their index. *)
Record World : Type := mkWorld {
  clock : Z;
  incoming : list Response;
  sent : list Request;
  slept : list Z;
  stdout : list printed;
  store : list Headers
}.

Inductive halt : Set :=
| ScriptExhausted
| Dangling.

Inductive outcome (A : Type) : Type :=
| Returns (a : A)
| Raises (e : exn)
| Halts (h : halt).
Arguments Returns {A} a.
Arguments Raises {A} e.
Arguments Halts {A} h.

Module IO.

Definition t (A : Type) : Type := World -> outcome A * World.

Definition ret {A} (a : A) : t A := fun w => (Returns a, w).

Definition bind {A B} (m : t A) (k : A -> t B) : t B := fun w =>
  match m w with
  | (Returns a, w') => k a w'
  | (Raises e, w') => (Raises e, w')
  | (Halts h, w') => (Halts h, w')
  end.

Definition raise {A} (e : exn) : t A := fun w => (Raises e, w).

Definition lift {A} (r : result A) : t A :=
  match r with
  | Ok a => ret a
  | Raise e => raise e
  end.

(** [try: m except e: h] *)
Definition catch {A} (m : t A) (e : exn) (h : t A) : t A := fun w =>
  match m w with
  | (Raises e', w') => if decide (e' = e) then h w' else (Raises e', w')
  | r => r
  end.

Definition print (p : printed) : t unit := fun w =>
  (Returns tt,
   mkWorld (clock w) (incoming w) (sent w) (slept w) (stdout w ++ [p]) (store w)).

(** [int(time.time())] *)
Definition time : t Z := fun w => (Returns (clock w), w).

(** [time.sleep(d)] *)
Definition sleep (d : Z) : t unit := fun w =>
  if d <? 0 then (Raises ValueError, w)
  else (Returns tt,
        mkWorld (clock w + d) (incoming w) (sent w) (slept w ++ [d]) (stdout w) (store w)).

(** A new dictionary object holding [h]. *)
Definition alloc (h : Headers) : t nat := fun w =>
  (Returns (length (store w)),
   mkWorld (clock w) (incoming w) (sent w) (slept w) (stdout w) (store w ++ [h])).

Definition read (l : nat) : t Headers := fun w =>
  match store w !! l with
  | Some h => (Returns h, w)
  | None => (Halts Dangling, w)
  end.

(** [headers.update({k: v})] on the object [l]. *)
Definition update (l : nat) (k v : string) : t unit := fun w =>
  match store w !! l with
  | Some h =>
      (Returns tt,
       mkWorld (clock w) (incoming w) (sent w) (slept w) (stdout w)
               (<[l := h_update h k v]> (store w)))
  | None => (Halts Dangling, w)
  end.

(** [copy.deepcopy(l)] *)
Definition deepcopy (l : nat) : t nat := bind (read l) alloc.

(** The remote end: the request is logged, the next scripted response
    comes back. *)
Definition transport (q : Request) : t Response := fun w =>
  let w' := mkWorld (clock w) (incoming w) (sent w ++ [q]) (slept w) (stdout w) (store w) in
  match incoming w with
  | r :: rs =>
      (Returns r, mkWorld (clock w) rs (sent w ++ [q]) (slept w) (stdout w) (store w))
  | [] => (Halts ScriptExhausted, w')
  end.

End IO.

Notation "x <~ m ;; k" := (IO.bind m (fun x => k))
  (at level 100, m at next level, right associativity, only parsing).
Notation "m ;;; k" := (IO.bind m (fun _ => k))
  (at level 100, right associativity, only parsing).

(** ** api.py *)

Module api.

Definition API_URL : string := "https://api.github.com".

(** [rate_limit_sleep(headers)] *)
Definition rate_limit_sleep (headers : Headers) : IO.t unit :=
  let sleep_time := 60 in
  sleep_time <~ IO.lift (match h_get headers "Retry-After" with
                         | Some v => int_of_str v
                         | None => Ok sleep_time
                         end) ;;
  let xrlr := h_get headers "X-RateLimit-Reset" in
  sleep_time <~ match xrlr with
                | Some x =>
                    reset <~ IO.lift (int_of_str x) ;;
                    now <~ IO.time ;;
                    IO.ret (reset - now)
                | None => IO.ret sleep_time
                end ;;
  IO.print (PrRateLimit sleep_time) ;;;
  IO.sleep sleep_time.

(** [msg.get('message', '').lower().startswith('api rate limit')] *)
Definition is_rate_limit_message (msg : json) : result bool :=
  match msg with
  | JObj o =>
      match default (JStr "") (o !! "message") with
      | JStr m => Ok (startswith (lower m) "api rate limit")
      | _ => Raise AttributeError
      end
  | _ => Raise AttributeError
  end.

(** The [rate_limit] decorator: [while True] unrolled [fuel] times. A
    loop that uses up its fuel has used up the script as well (lemma
    [rate_limit_fuel]). *)
Fixpoint rate_limit (fuel : nat) (func : IO.t Response) : IO.t Response :=
  match fuel with
  | O => fun w => (Halts ScriptExhausted, w)
  | S fuel' =>
      response <~ func ;;
      if ((status_code response =? 403) || (status_code response =? 429)) && text response
      then
        msg <~ IO.lift (json_of response) ;;
        limited <~ IO.lift (is_rate_limit_message msg) ;;
        if limited : bool
        then rate_limit_sleep (headers response) ;;; rate_limit fuel' func
        else IO.ret response
      else IO.ret response
  end.

(** The [Api] object; [api_headers] names the dictionary it owns. *)
Record Api : Type := mkApi {
  debug : bool;
  api_url : string;
  api_token : string;
  api_headers : nat
}.

(** What [requests.utils.default_headers()] depends on. *)
Record Requests : Type := mkRequests {
  default_user_agent : string;
  default_accept_encoding : string
}.

Definition default_headers (env : Requests) : IO.t nat :=
  IO.alloc
    (h_update
       (h_update
          (h_update
             (h_update ∅ "User-Agent" (default_user_agent env))
             "Accept-Encoding" (default_accept_encoding env))
          "Accept" "*/*")
       "Connection" "keep-alive").

(** [Api.__init__] *)
Definition init (env : Requests) (api_url : string) (token : option string)
    (user_agent : option string) (debug : bool) : IO.t Api :=
  match token with
  | None => IO.raise NoApiToken
  | Some token =>
      if String.eqb token "" then IO.raise NoApiToken
      else
        headers <~ default_headers env ;;
        match user_agent with
        | None => IO.ret tt
        | Some ua => IO.update headers "User-Agent" ua
        end ;;;
        IO.update headers "Accept" "application/vnd.github+json" ;;;
        IO.update headers "Authorization" ("Bearer: " +:+ token) ;;;
        IO.ret (mkApi debug api_url token headers)
  end.

(** [Api.__mk_params]; [params.items()] needs a [dict]. *)
Definition query_string (ps : Params) : string :=
  fold_left
    (fun args kv =>
       let sep := if String.eqb args "" then "&" else "?" in
       args +:+ sep +:+ fst kv +:+ "=" +:+ str_of_pval (snd kv))
    ps "".

Definition mk_params (params : option Params) : result string :=
  match params with
  | None => Raise AttributeError
  | Some ps => Ok (query_string ps)
  end.

(** [Api.__send] with [verb = requests.get]. The URL [__mk_url] joins is
    kept as its two parts in the request. *)
Definition send (self : Api) (path : string) (data : option string)
    (version : option string) (dbg : option bool) (params : option Params)
  : IO.t Response :=
  let dbg := default (debug self) dbg in
  let fname := "GET" in
  args <~ IO.lift (mk_params params) ;;
  headers <~ IO.deepcopy (api_headers self) ;;
  match version with
  | Some v => IO.update headers "X-GitHub-Api-Version" v
  | None => IO.ret tt
  end ;;;
  (if dbg then IO.print (PrRequest fname (api_url self) path args) else IO.ret tt) ;;;
  on_wire <~ IO.read headers ;;
  IO.transport (mkRequest "get" (api_url self) path data on_wire (default [] params)).

(** [Api.get]: [__send] under [rate_limit]. Every turn of the loop takes
    a response off the script, so its length bounds the turns. *)
Definition get (self : Api) (path : string) (data : option string)
    (version : option string) (dbg : option bool) (params : option Params)
  : IO.t Response := fun w =>
  rate_limit (S (length (incoming w))) (send self path data version dbg params) w.

(** The verbs that are not implemented. *)
Definition put : IO.t Response := IO.raise NotImplemented.
Definition post : IO.t Response := IO.raise NotImplemented.
Definition delete : IO.t Response := IO.raise NotImplemented.
Definition head : IO.t Response := IO.raise NotImplemented.
Definition patch : IO.t Response := IO.raise NotImplemented.
Definition options : IO.t Response := IO.raise NotImplemented.

(** What a caller may hand to [success] as the response. *)
Inductive response_arg : Type :=
| Absent
| NotAResponse (v : json)
| Genuine (r : Response).

Definition attr_status_code (a : response_arg) : result Z :=
  match a with
  | Genuine r => Ok (status_code r)
  | _ => Raise AttributeError
  end.

(** [Api.success] *)
Definition success (response : response_arg) (expected : Z) (output : bool)
  : IO.t bool :=
  IO.catch
    (code <~ IO.lift (attr_status_code response) ;;
     if negb (code =? expected)
     then
       match response with
       | Genuine r =>
           (if text r && output
            then v <~ IO.lift (json_of r) ;; IO.print (PrJson v)
            else IO.ret tt) ;;;
           IO.ret false
       | _ => IO.raise AttributeError
       end
     else IO.ret true)
    AttributeError
    (IO.ret false).

End api.

(** ** The [datetime] module, as far as the program uses it *)

Module datetime.

(** A naive [datetime.datetime]. *)
Record t : Set := mk {
  year : Z;
  month : Z;
  day : Z;
  hour : Z;
  minute : Z;
  second : Z;
  microsecond : Z
}.

Definition is_leap (y : Z) : bool :=
  (y mod 4 =? 0) && (negb (y mod 100 =? 0) || (y mod 400 =? 0)).

Definition days_in_month (y m : Z) : Z :=
  if m =? 2 then (if is_leap y then 29 else 28)
  else if (m =? 4) || (m =? 6) || (m =? 9) || (m =? 11) then 30
  else 31.

Definition days_before_year (y : Z) : Z :=
  let y := y - 1 in
  y * 365 + y / 4 - y / 100 + y / 400.

Definition days_before_month (y m : Z) : Z :=
  nth (Z.to_nat m) [0; 0; 31; 59; 90; 120; 151; 181; 212; 243; 273; 304; 334] 0
  + (if (2 <? m) && is_leap y then 1 else 0).

Definition toordinal (d : t) : Z :=
  days_before_year (year d) + days_before_month (year d) (month d) + day d.

Definition valid (d : t) : bool :=
  (1 <=? year d) && (year d <=? 9999)
  && (1 <=? month d) && (month d <=? 12)
  && (1 <=? day d) && (day d <=? days_in_month (year d) (month d))
  && (0 <=? hour d) && (hour d <? 24)
  && (0 <=? minute d) && (minute d <? 60)
  && (0 <=? second d) && (second d <? 60)
  && (0 <=? microsecond d) && (microsecond d <? 1000000).

(** [datetime.timedelta], always normalised. *)
Record timedelta : Set := mk_delta {
  days : Z;
  seconds : Z;
  microseconds : Z
}.

(** [timedelta(days, seconds, microseconds)] on [int] arguments, with
    the carries in the order the constructor makes them. *)
Definition new_timedelta (days0 seconds0 microseconds0 : Z) : timedelta :=
  let d := days0 in
  let '(dd, ss) := (seconds0 / 86400, seconds0 mod 86400) in
  let d := d + dd in
  let s := ss in
  let '(secs, us) := (microseconds0 / 1000000, microseconds0 mod 1000000) in
  let '(dd, secs) := (secs / 86400, secs mod 86400) in
  let d := d + dd in
  let s := s + secs in
  let '(secs, us) := (us / 1000000, us mod 1000000) in
  let s := s + secs in
  let '(dd, s) := (s / 86400, s mod 86400) in
  let d := d + dd in
  mk_delta d s us.

(** [a - b] on two naive datetimes. *)
Definition sub (a b : t) : timedelta :=
  let days1 := toordinal a in
  let days2 := toordinal b in
  let secs1 := second a + minute a * 60 + hour a * 3600 in
  let secs2 := second b + minute b * 60 + hour b * 3600 in
  new_timedelta (days1 - days2) (secs1 - secs2) (microsecond a - microsecond b).

Definition pad (w : nat) (n : Z) : string := rjust w "0"%char (str_of_int n).

(** [d.isoformat()] of a naive datetime. *)
Definition isoformat (d : t) : string :=
  pad 4 (year d) +:+ "-" +:+ pad 2 (month d) +:+ "-" +:+ pad 2 (day d)
  +:+ "T" +:+ pad 2 (hour d) +:+ ":" +:+ pad 2 (minute d) +:+ ":" +:+ pad 2 (second d)
  +:+ (if microsecond d =? 0 then "" else "." +:+ pad 6 (microsecond d)).

(** Reading [n] decimal digits. *)
Fixpoint take_digits (n : nat) (acc : Z) (s : string) : option (Z * string) :=
  match n with
  | O => Some (acc, s)
  | S n' =>
      match s with
      | String c s' =>
          match digit_of c with
          | Some d => take_digits n' (10 * acc + d) s'
          | None => None
          end
      | EmptyString => None
      end
  end.

Definition expect (c : ascii) (s : string) : option string :=
  match s with
  | String c' s' => if Ascii.eqb c c' then Some s' else None
  | EmptyString => None
  end.

(** The digits of a fraction of a second: the first six count, padded
    with zeros on the right. *)
Fixpoint fraction (width : nat) (acc : Z) (s : string) : Z * string :=
  match s with
  | String c s' =>
      match digit_of c with
      | Some d =>
          match width with
          | O => fraction O acc s'
          | S w => fraction w (10 * acc + d) s'
          end
      | None => (acc * 10 ^ Z.of_nat width, s)
      end
  | EmptyString => (acc * 10 ^ Z.of_nat width, s)
  end.

(** The zone suffix: nothing, [Z], or [+HH:MM] / [-HH:MM]. *)
Definition zone (s : string) : option unit :=
  match s with
  | EmptyString => Some tt
  | String c r =>
      if Ascii.eqb c "Z"%char then (if String.eqb r "" then Some tt else None)
      else if Ascii.eqb c "+"%char || Ascii.eqb c "-"%char then
        '(hh, r) ← take_digits 2 0 r;
        r ← expect ":"%char r;
        '(mm, r) ← take_digits 2 0 r;
        if (hh <? 24) && (mm <? 60) && String.eqb r "" then Some tt else None
      else None
  end.

Definition parse (s : string) : option t :=
  '(y, r) ← take_digits 4 0 s;
  r ← expect "-"%char r;
  '(m, r) ← take_digits 2 0 r;
  r ← expect "-"%char r;
  '(d, r) ← take_digits 2 0 r;
  match r with
  | EmptyString => Some (mk y m d 0 0 0 0)
  | String _ r =>
      '(hh, r) ← take_digits 2 0 r;
      r ← expect ":"%char r;
      '(mi, r) ← take_digits 2 0 r;
      r ← expect ":"%char r;
      '(ss, r) ← take_digits 2 0 r;
      let '(us, r) :=
        match r with
        | String c r' =>
            if Ascii.eqb c "."%char || Ascii.eqb c ","%char
            then match r' with
                 | String c' _ =>
                     match digit_of c' with
                     | Some _ => fraction 6 0 r'
                     | None => (0, r)
                     end
                 | EmptyString => (0, r)
                 end
            else (0, r)
        | EmptyString => (0, r)
        end in
      _ ← zone r;
      Some (mk y m d hh mi ss us)
  end.

(** [datetime.fromisoformat(s).replace(tzinfo=None)] for the extended
    forms [YYYY-MM-DD] and [YYYY-MM-DD?HH:MM:SS[.f+][Z|+HH:MM|-HH:MM]];
    the zone is read and dropped, nothing is converted. The other ISO
    8601 forms the library reads are not modelled and are refused here. *)
Definition fromisoformat (s : string) : result t :=
  match parse s with
  | Some d => if valid d then Ok d else Raise ValueError
  | None => Raise ValueError
  end.

End datetime.

(** ** Formatting a [float] *)

Module fmt.

Fixpoint int63_of_pos (p : positive) : int :=
  match p with
  | xH => 1%uint63
  | xO p' => PrimInt63.lsl (int63_of_pos p') 1%uint63
  | xI p' => PrimInt63.lor (PrimInt63.lsl (int63_of_pos p') 1%uint63) 1%uint63
  end.

Definition int63_of_Z (z : Z) : int :=
  match z with
  | Z0 => 0%uint63
  | Zpos p => int63_of_pos p
  | Zneg p => PrimInt63.sub 0%uint63 (int63_of_pos p)
  end.

Fixpoint Z_of_int63_bits (bits : nat) (i : int) : Z :=
  match bits with
  | O => 0
  | S bits' =>
      (if PrimInt63.eqb (PrimInt63.land i 1%uint63) 1%uint63 then 1 else 0)
      + 2 * Z_of_int63_bits bits' (PrimInt63.lsr i 1%uint63)
  end.

Definition Z_of_int63 (i : int) : Z := Z_of_int63_bits 63 i.

(** [float(n)] for an [int] below 2^53, where it is exact. *)
Definition float_of_int (n : Z) : float := PrimFloat.of_uint63 (int63_of_Z n).

(** The bias [frshiftexp] adds to the exponent: [2 * emax + prec]. *)
Definition shift : Z := 2101.

(** A finite positive float as [m * 2^e], [m] a 53-bit integer. *)
Definition decompose (f : float) : Z * Z :=
  let '(frac, e) := PrimFloat.frshiftexp f in
  (Z_of_int63 (PrimFloat.normfr_mantissa frac),
   Z_of_int63 e - shift - 53).

(** The nearest integer to [f * 10], ties to even, for a finite [f >= 0]. *)
Definition tenths (f : float) : Z :=
  if PrimFloat.is_zero f then 0
  else
    let '(m, e) := decompose f in
    let n := m * 10 in
    if 0 <=? e then n * 2 ^ e
    else
      let den := 2 ^ (- e) in
      let q := n / den in
      let r := n mod den in
      if (den <? 2 * r) || ((den =? 2 * r) && Z.odd q) then q + 1 else q.

(** [f'{f:.1f}'] *)
Definition fixed1 (f : float) : string :=
  if PrimFloat.is_nan f then "nan"
  else if PrimFloat.is_infinity f
       then (if PrimFloat.ltb f PrimFloat.zero then "-inf" else "inf")
  else
    let t := tenths (PrimFloat.abs f) in
    (if PrimFloat.ltb f PrimFloat.zero then "-" else "")
    +:+ str_of_int (t / 10) +:+ "." +:+ str_of_int (t mod 10).

End fmt.

(** ** pull_request.py *)

Module pull_request.

Record PullRequest : Type := mk { raw : json }.

Definition created (self : PullRequest) : result json := Py.get (raw self) "created_at".
Definition updated (self : PullRequest) : result json := Py.get (raw self) "updated_at".
Definition merged (self : PullRequest) : result json := Py.get (raw self) "merged_at".
Definition closed (self : PullRequest) : result json := Py.get (raw self) "merged_at".

Definition isClosed (self : PullRequest) : result bool :=
  c <- closed self ;; Ok (if is_none c then false else true).

Definition isMerged (self : PullRequest) : result bool :=
  m <- merged self ;; Ok (if is_none m then false else true).

(** [datetime.datetime.fromisoformat(v).replace(tzinfo=None)]; the
    argument must be a [str]. *)
Definition parse_naive (v : json) : result datetime.t :=
  match v with
  | JStr s => datetime.fromisoformat s
  | _ => Raise TypeError
  end.

(** [f'{abs(days):4d}d {hours:4.1f}h'] *)
Definition format_age (days : Z) (hours : float) : string :=
  rjust 4 " "%char (str_of_int (Z.abs days)) +:+ "d "
  +:+ rjust 4 " "%char (fmt.fixed1 hours) +:+ "h".

(** The [age] property; [current] is what [datetime.datetime.now()]
    returns when the property is read. *)
Definition age (self : PullRequest) (current : datetime.t) : result string :=
  c <- created self ;;
  created <- parse_naive c ;;
  is_merged <- isMerged self ;;
  now <- (if is_merged : bool
          then m <- merged self ;; parse_naive m
          else
            is_closed <- isClosed self ;;
            if is_closed : bool
            then c <- closed self ;; parse_naive c
            else Ok current) ;;
  let diff := datetime.sub now created in
  let days := datetime.days diff in
  let hours := PrimFloat.div (fmt.float_of_int (datetime.seconds diff)) 3600%float in
  Ok (format_age days hours).

(** The [state] and [title] properties. *)
Definition state (self : PullRequest) : result json := Py.get (raw self) "state".


End pull_request.

(** ** github.py *)

Module github.

Import pull_request.

Record GitHub : Type := mk { api : api.Api }.

(** [u < s] and [u > s] for a payload value [u] and a [str]: only a
    [str] can be ordered against a [str]. *)
Definition lt_str (u : json) (s : string) : result bool :=
  match u with
  | JStr a => Ok (str_lt a s)
  | _ => Raise TypeError
  end.

Definition gt_str (u : json) (s : string) : result bool :=
  match u with
  | JStr a => Ok (str_gt a s)
  | _ => Raise TypeError
  end.

(** [list(filter(f, l))] *)
Fixpoint py_filter {A} (f : A -> result bool) (l : list A) : result (list A) :=
  match l with
  | [] => Ok []
  | x :: l' =>
      keep <- f x ;;
      rest <- py_filter f l' ;;
      Ok (if keep : bool then x :: rest else rest)
  end.

(** [l[-1]] *)
Definition last_item {A} (l : list A) : result A :=
  match last l with
  | Some x => Ok x
  | None => Raise IndexError
  end.

(** Iterating over a decoded JSON value: the items of a list, the keys
    of a dict, the characters of a string. *)
Definition iterate (v : json) : result (list json) :=
  match v with
  | JList l => Ok l
  | JObj o => Ok (map (fun kv => JStr (fst kv)) (map_to_list o))
  | JStr s => Ok (map (fun c => JStr (String c EmptyString)) (list_ascii_of_string s))
  | _ => Raise TypeError
  end.

(** The inner [filter_func] of [__date_filter]. *)
Definition filter_func (oldest_date latest_date : option datetime.t)
    (pull_request : PullRequest) : result bool :=
  if bool_decide (oldest_date = None) && bool_decide (latest_date = None) then Ok true
  else
    too_old <- match oldest_date with
               | Some o => u <- updated pull_request ;; lt_str u (datetime.isoformat o)
               | None => Ok false
               end ;;
    if too_old : bool then Ok false
    else
      too_new <- match latest_date with
                 | Some l => u <- updated pull_request ;; gt_str u (datetime.isoformat l)
                 | None => Ok false
                 end ;;
      if too_new : bool then Ok false else Ok true.

(** [GitHub.__date_filter] *)
Definition date_filter (pull_requests : list PullRequest)
    (oldest_date latest_date : option datetime.t) : result (list PullRequest) :=
  py_filter (filter_func oldest_date latest_date) pull_requests.

(** The test that ends the loop of [get_pull_requests]. *)
Definition last_page (partial_pull_reqs : list PullRequest) (per_page : Z)
    (oldest_date : option datetime.t) : result bool :=
  let count := Z.of_nat (length partial_pull_reqs) in
  if count <? per_page then Ok true
  else
    match oldest_date with
    | None => Ok false
    | Some o =>
        final <- last_item partial_pull_reqs ;;
        u <- updated final ;;
        lt_str u (datetime.isoformat o)
    end.

(** The keyword arguments [get_pull_requests] passes on to [Api.get]. *)
Record kwargs : Type := mk_kwargs {
  kw_data : option string;
  kw_version : option string
}.

(** [params['page'] += 1] *)
Definition next_page (params : Params) : result Params :=
  match dict_get params "page" with
  | Some (PInt n) => Ok (dict_set params "page" (PInt (n + 1)))
  | Some (PStr _) => Raise TypeError
  | None => Raise KeyError
  end.

(** The [while True] of [get_pull_requests], unrolled [fuel] times;
    [self.__response] is the local [response]. A loop that uses up its
    fuel has used up the script as well (lemma [pages_fuel]). *)
Fixpoint pages (fuel : nat) (self : GitHub) (path : string)
    (oldest_date latest_date : option datetime.t) (per_page : Z)
    (debug : bool) (kw : kwargs) (params : Params)
    (pull_reqs : list PullRequest) : IO.t (list PullRequest) :=
  match fuel with
  | O => fun w => (Halts ScriptExhausted, w)
  | S fuel' =>
      params <~ IO.lift (next_page params) ;;
      (if debug
       then IO.print (PrPage (dict_get params "page") (dict_get params "per_page"))
       else IO.ret tt) ;;;
      response <~ api.get (api self) path (kw_data kw) (kw_version kw)
                          (Some debug) (Some params) ;;
      ok <~ api.success (api.Genuine response) 200 true ;;
      if negb ok then IO.raise GetPullRequestsError
      else
        items <~ IO.lift (v <- json_of response ;; iterate v) ;;
        let partial_pull_reqs := map pull_request.mk items in
        let count := Z.of_nat (length partial_pull_reqs) in
        pull_reqs <~ (if 0 <? count
                      then
                        kept <~ IO.lift (date_filter partial_pull_reqs oldest_date latest_date) ;;
                        IO.ret (pull_reqs ++ kept)%list
                      else IO.ret pull_reqs) ;;
        stop <~ IO.lift (last_page partial_pull_reqs per_page oldest_date) ;;
        if stop : bool then IO.ret pull_reqs
        else pages fuel' self path oldest_date latest_date per_page debug kw params pull_reqs
  end.

(** [GitHub.get_pull_requests]. Every turn of the loop takes at least
    one response off the script, so its length bounds the turns. *)
Definition get_pull_requests (self : GitHub) (owner repo : string)
    (oldest_date latest_date : option datetime.t) (per_page : Z)
    (params : option Params) (debug : bool) (kw : kwargs)
  : IO.t (list PullRequest) := fun w =>
  let params := default [] params in
  let path := "repos" +:+ "/" +:+ owner +:+ "/" +:+ repo +:+ "/" +:+ "pulls" in
  let params := dict_set params "page" (PInt 0) in
  let params := dict_set params "per_page" (PInt per_page) in
  let params :=
    dict_set (dict_set (dict_set params "state" (PStr "all")) "sort" (PStr "updated"))
             "direction" (PStr "desc") in
  pages (S (length (incoming w))) self path oldest_date latest_date per_page
        debug kw params [] w.

(** [GitHub.filter_state] *)
Definition filter_state (prs : list PullRequest) (state : string) : result (list PullRequest) :=
  py_filter
    (fun pr =>
       s <- Py.get (raw pr) "state" ;;
       Ok (match s with JStr s' => String.eqb s' state | _ => false end))
    prs.

End github.

(** * Properties *)

(** ** The rate-limit guard's sleep *)

Section RateLimitSleep.




End RateLimitSleep.

Ltac io_simpl :=
  unfold IO.bind, IO.lift, IO.ret, IO.raise, IO.print, IO.sleep, IO.time, IO.catch in *;
  simpl in *.




(** ** [Api.success] *)

Section Success.

Definition bad_gateway : Response :=
  mkResponse 502 ∅ (BodyRaw "<html>502 Bad Gateway</html>").


(** The only exception [success] lets through is the decoding error of
    the diagnostic print. *)
Lemma success_raises (a : api.response_arg) (expected : Z) (output : bool)
    (e : exn) (w w' : World) :
  api.success a expected output w = (Raises e, w') ->
  e = JSONDecodeError
  /\ exists r s, a = api.Genuine r /\ body r = BodyRaw s
                 /\ status_code r <> expected /\ text r = true /\ output = true.
Proof.
  unfold api.success. destruct a as [|v|r]; io_simpl; try discriminate.
  destruct (status_code r =? expected) eqn:Hs; simpl; try discriminate.
  destruct (text r) eqn:Ht, output; simpl; try discriminate.
  unfold json_of. destruct (body r) as [v|s] eqn:Hb; simpl; try discriminate.
  intros [= <- _]. split; [reflexivity|].
  exists r, s. repeat split; try assumption. lia.
Qed.

(** C5 at its failing input: a 502 answer with an HTML body, checked
    with diagnostics on, makes [success] raise. *)
Theorem success_raises_on_undecodable_body (w : World) :
  api.success (api.Genuine bad_gateway) 200 true w = (Raises JSONDecodeError, w).
Proof. reflexivity. Qed.

End Success.

(** ** The pull-request record *)

Section Record.

Import pull_request.

Definition closed_unmerged : PullRequest :=
  mk (JObj (<["closed_at" := JStr "2024-01-02T00:00:00Z"]>
            (<["merged_at" := JNull]> ∅))).

(** [closed] and [merged] read the same field. *)
Lemma closed_is_merged (self : PullRequest) :
  closed self = merged self /\ isClosed self = isMerged self.
Proof. split; reflexivity. Qed.

(** C7 at its failing input: a record closed without a merge has its
    [closed_at] timestamp in the payload, yet [closed] is [None] and
    [isClosed()] is [False]. *)
Theorem closed_reads_merged_at :
  Py.get (raw closed_unmerged) "closed_at" = Ok (JStr "2024-01-02T00:00:00Z")
  /\ closed closed_unmerged = Ok JNull
  /\ isClosed closed_unmerged = Ok false.
Proof. repeat split; reflexivity. Qed.

End Record.

(** ** The age of a pull request *)

Section Age.

Import pull_request.

(** Whole seconds from [b] to [a], rounded down. *)
Definition elapsed (a b : datetime.t) : Z :=
  (datetime.toordinal a - datetime.toordinal b) * 86400
  + ((datetime.second a + datetime.minute a * 60 + datetime.hour a * 3600)
     - (datetime.second b + datetime.minute b * 60 + datetime.hour b * 3600))
  + (datetime.microsecond a - datetime.microsecond b) / 1000000.

(** The carries of the [timedelta] constructor amount to one floor
    division. *)
Lemma new_timedelta_floor (d s u : Z) :
  datetime.new_timedelta d s u
  = datetime.mk_delta (d + (s + u / 1000000) / 86400)
                      ((s + u / 1000000) mod 86400)
                      (u mod 1000000).
Proof.
  unfold datetime.new_timedelta. simpl.
  f_equal.
  - Z.div_mod_to_equations. lia.
  - Z.div_mod_to_equations. lia.
  - Z.div_mod_to_equations. lia.
Qed.

Lemma sub_floor (a b : datetime.t) :
  datetime.days (datetime.sub a b) = elapsed a b / 86400
  /\ datetime.seconds (datetime.sub a b) = elapsed a b mod 86400.
Proof.
  unfold datetime.sub. rewrite new_timedelta_floor. simpl. unfold elapsed.
  split; Z.div_mod_to_equations; lia.
Qed.

Definition opened_new_year : PullRequest :=
  mk (JObj (<["created_at" := JStr "2024-01-01T00:00:00"]> ∅)).

Definition opened_tomorrow : PullRequest :=
  mk (JObj (<["created_at" := JStr "2024-01-02T00:00:00Z"]> ∅)).

(** C8, as the code has it: for a record that is neither merged nor
    closed, read at the instant [now], the age string shows the absolute
    value of the whole number of days (rounded down) from [created] to
    [now], which is that number itself when [now] is not earlier than
    [created], and an hours figure computed from the seconds left over
    below one day, divided by 3600, never from the total hours. *)
Theorem age_of_open_record (self : PullRequest) (c : string)
    (born now : datetime.t)
    (Hcreated : created self = Ok (JStr c))
    (Hborn : datetime.fromisoformat c = Ok born)
    (Hmerged : isMerged self = Ok false)
    (Hclosed : isClosed self = Ok false) :
  let e := elapsed now born in
  let hours := PrimFloat.div (fmt.float_of_int (e mod 86400)) 3600%float in
  age self now
  = Ok (rjust 4 " "%char (str_of_int (Z.abs (e / 86400))) +:+ "d "
        +:+ rjust 4 " "%char (fmt.fixed1 hours) +:+ "h")
  /\ (0 <= e ->
      age self now
      = Ok (rjust 4 " "%char (str_of_int (e / 86400)) +:+ "d "
            +:+ rjust 4 " "%char (fmt.fixed1 hours) +:+ "h")).
Proof.
  intros e hours.
  assert (Hage : age self now
                 = Ok (format_age (e / 86400) hours)).
  { unfold age, Py.bind. rewrite Hcreated. cbv iota beta.
    unfold parse_naive. rewrite Hborn, Hmerged. cbv iota beta.
    rewrite Hclosed. cbv iota beta.
    destruct (sub_floor now born) as [-> ->]. reflexivity. }
  split; [exact Hage|].
  intros He. rewrite Hage. unfold format_age.
  rewrite Z.abs_eq; [reflexivity|].
  apply Z.div_pos; lia.
Qed.

(** The example of the specification: created 2024-01-01T00:00:00 and
    read at 2024-01-02T01:30:00, one day and 5400 seconds, 1.5 hours. *)
Lemma age_of_open_record_witness :
  elapsed (datetime.mk 2024 1 2 1 30 0 0) (datetime.mk 2024 1 1 0 0 0 0) = 91800
  /\ 91800 / 86400 = 1 /\ 91800 mod 86400 = 5400
  /\ PrimFloat.div (fmt.float_of_int 5400) 3600%float = 1.5%float
  /\ age opened_new_year (datetime.mk 2024 1 2 1 30 0 0) = Ok "   1d  1.5h".
Proof.
  do 4 (split; [reflexivity|]).
  destruct (age_of_open_record opened_new_year "2024-01-01T00:00:00"
              (datetime.mk 2024 1 1 0 0 0 0) (datetime.mk 2024 1 2 1 30 0 0))
    as [_ H]; [reflexivity | reflexivity | reflexivity | reflexivity |].
  rewrite H; [reflexivity | vm_compute; discriminate].
Defined.

(** C8 as stated fails when the record is read before its creation
    time: one hour before, the difference holds no whole day (minus one
    when rounded down), and the age string shows a day count of 1. *)
Lemma age_before_creation :
  let created_at := datetime.mk 2024 1 2 0 0 0 0 in
  let now := datetime.mk 2024 1 1 23 0 0 0 in
  created opened_tomorrow = Ok (JStr "2024-01-02T00:00:00Z")
  /\ datetime.fromisoformat "2024-01-02T00:00:00Z" = Ok created_at
  /\ isMerged opened_tomorrow = Ok false
  /\ isClosed opened_tomorrow = Ok false
  /\ elapsed now created_at = -3600
  /\ Z.quot (-3600) 86400 = 0
  /\ -3600 / 86400 = -1
  /\ age opened_tomorrow now = Ok "   1d 23.0h".
Proof. repeat split; reflexivity. Qed.

End Age.

(** ** The date filter *)

Section DateFilter.

Import pull_request github.

(** What the loop of [get_pull_requests] keeps of a run of pages:
    [pull_reqs += self.__date_filter(...)], page after page. *)
Fixpoint accumulate (oldest_date latest_date : option datetime.t)
    (batches : list (list PullRequest)) (pull_reqs : list PullRequest)
  : result (list PullRequest) :=
  match batches with
  | [] => Ok pull_reqs
  | partial_pull_reqs :: rest =>
      pull_reqs <- (if 0 <? Z.of_nat (length partial_pull_reqs)
                    then
                      kept <- date_filter partial_pull_reqs oldest_date latest_date ;;
                      Ok (pull_reqs ++ kept)%list
                    else Ok pull_reqs) ;;
      accumulate oldest_date latest_date rest pull_reqs
  end.

Lemma py_filter_app {A} (f : A -> result bool) (l1 l2 : list A) :
  py_filter f (l1 ++ l2)%list
  = (r1 <- py_filter f l1 ;; r2 <- py_filter f l2 ;; Ok (r1 ++ r2)%list).
Proof.
  induction l1 as [|x l1 IH]; simpl.
  - destruct (py_filter f l2); reflexivity.
  - destruct (f x) as [keep|e]; simpl; [|reflexivity].
    rewrite IH. destruct (py_filter f l1) as [r1|e]; simpl; [|reflexivity].
    destruct (py_filter f l2) as [r2|e]; simpl; [|reflexivity].
    destruct keep; reflexivity.
Qed.

Lemma accumulate_concat (oldest_date latest_date : option datetime.t)
    (batches : list (list PullRequest)) (pull_reqs : list PullRequest) :
  accumulate oldest_date latest_date batches pull_reqs
  = (kept <- date_filter (concat batches) oldest_date latest_date ;;
     Ok (pull_reqs ++ kept)%list).
Proof.
  revert pull_reqs. induction batches as [|b rest IH]; intros pull_reqs; simpl.
  - rewrite app_nil_r. reflexivity.
  - unfold date_filter in *. rewrite py_filter_app.
    destruct b as [|x b]; simpl.
    + rewrite IH.
      destruct (py_filter (filter_func oldest_date latest_date) (concat rest));
        reflexivity.
    + destruct (filter_func oldest_date latest_date x) as [keep|e]; simpl;
        [|reflexivity].
      destruct (py_filter (filter_func oldest_date latest_date) b) as [r1|e];
        simpl; [|reflexivity].
      rewrite IH.
      destruct (py_filter (filter_func oldest_date latest_date) (concat rest))
        as [r2|e]; simpl; [|reflexivity].
      rewrite <- app_assoc. reflexivity.
Qed.

Lemma py_filter_true {A} (f : A -> result bool) (l : list A) :
  (forall x, f x = Ok true) -> py_filter f l = Ok l.
Proof.
  intros Hf. induction l as [|x l IH]; simpl; [reflexivity|].
  rewrite Hf, IH. reflexivity.
Qed.

(** C4: filtering page by page and appending the results in page order
    gives what one pass of the filter over all pages gives, a raised
    error included; with both bounds unset the filter returns its input. *)
Theorem date_filter_pagewise (oldest_date latest_date : option datetime.t)
    (batches : list (list PullRequest)) (pull_requests : list PullRequest) :
  accumulate oldest_date latest_date batches []
  = date_filter (concat batches) oldest_date latest_date
  /\ date_filter pull_requests None None = Ok pull_requests.
Proof.
  split.
  - rewrite accumulate_concat.
    destruct (date_filter (concat batches) oldest_date latest_date); reflexivity.
  - apply py_filter_true. intros x. reflexivity.
Qed.

End DateFilter.

(** ** The transport and the guard around it *)

Section Transport.

Import api.

Implicit Types (self : Api) (w : World) (h : Headers) (ps : Params).

(** The headers of one call: the stored ones, with the version the
    call asks for. *)
Definition on_wire h (version : option string) : Headers :=
  match version with
  | Some v => h_update h "X-GitHub-Api-Version" v
  | None => h
  end.

Definition request_of self (path : string) (data version : option string) ps h
  : Request :=
  mkRequest "get" (api_url self) path data (on_wire h version) ps.

(** The world once [__send] has handed its request to the transport. *)
Definition after_send self (path : string) (data version : option string)
    (dbg : option bool) ps h w : World :=
  mkWorld (clock w) (tail (incoming w))
          (sent w ++ [request_of self path data version ps h]) (slept w)
          (if default (debug self) dbg
           then stdout w ++ [PrRequest "GET" (api_url self) path (query_string ps)]
           else stdout w)
          (store w ++ [on_wire h version]).

Lemma send_effect self path data version dbg ps h w :
  store w !! api_headers self = Some h ->
  send self path data version dbg (Some ps) w
  = (match incoming w with
     | r :: _ => Returns r
     | [] => Halts ScriptExhausted
     end,
     after_send self path data version dbg ps h w).
Proof.
  intros Hh. unfold send, after_send, request_of, on_wire.
  unfold IO.deepcopy, IO.read, IO.alloc, IO.update, IO.transport.
  io_simpl. rewrite Hh. simpl.
  destruct version as [v|]; simpl.
  - rewrite list_lookup_middle by reflexivity. simpl.
    rewrite insert_app_r_alt by reflexivity.
    rewrite Nat.sub_diag. simpl.
    destruct (default (debug self) dbg); simpl;
      rewrite list_lookup_middle by reflexivity;
      destruct (incoming w); reflexivity.
  - destruct (default (debug self) dbg); simpl;
      rewrite list_lookup_middle by reflexivity;
      destruct (incoming w); reflexivity.
Qed.

(** The test the guard makes before it decodes the body. *)
Definition looks_limited (r : Response) : bool :=
  ((status_code r =? 403) || (status_code r =? 429)) && text r.

(** A response that does not look rate limited goes straight through
    the guard: one request, one response. *)
Lemma get_unlimited self path data version dbg ps h w r rs :
  store w !! api_headers self = Some h ->
  incoming w = r :: rs ->
  looks_limited r = false ->
  get self path data version dbg (Some ps) w
  = (Returns r, after_send self path data version dbg ps h w).
Proof.
  intros Hh Hin Hlim. unfold get. rewrite Hin.
  cbn [length rate_limit]. unfold IO.bind at 1.
  rewrite (send_effect _ _ _ _ _ _ h) by exact Hh.
  rewrite Hin. unfold looks_limited in Hlim. rewrite Hlim. reflexivity.
Qed.

(** The exceptions the guard itself can raise. *)
Definition guard_error (e : exn) : Prop :=
  e = AttributeError \/ e = JSONDecodeError \/ e = ValueError.

Lemma int_of_str_raises (s : string) (e : exn) :
  int_of_str s = Raise e -> e = ValueError.
Proof.
  unfold int_of_str.
  destruct (match strip s with
            | EmptyString => None
            | String c r =>
                if Ascii.eqb c "-"%char then Z.opp <$> digits false 0 r
                else if Ascii.eqb c "+"%char then digits false 0 r
                else digits false 0 (strip s)
            end); [discriminate|].
  intros [= <-]. reflexivity.
Qed.

Lemma rate_limit_sleep_frame (hdrs : Headers) w (o : outcome unit) w' :
  rate_limit_sleep hdrs w = (o, w') ->
  incoming w' = incoming w /\ sent w' = sent w /\ store w' = store w
  /\ (forall e, o = Raises e -> e = ValueError).
Proof.
  unfold rate_limit_sleep. io_simpl.
  destruct (h_get hdrs "Retry-After") as [v|];
    [destruct (int_of_str v) as [ra|e0] eqn:E0|]; simpl;
    try (destruct (h_get hdrs "X-RateLimit-Reset") as [x|];
         [destruct (int_of_str x) as [reset|e1] eqn:E1|]; simpl);
    try match goal with
        | |- context [if ?b then _ else _] => destruct b
        end;
    intros [= <- <-]; simpl; repeat split;
    try (intros e' He'; inversion He'; subst; eauto using int_of_str_raises).
Qed.

(** Whatever the script holds, a guarded call leaves the stored objects
    alone, sends only requests that carry the headers of this call, and
    raises nothing but the guard's own errors. *)
Lemma rate_limit_send_frame self path data version dbg (params : option Params)
    h (fuel : nat) :
  forall w (o : outcome Response) w',
    store w !! api_headers self = Some h ->
    rate_limit fuel (send self path data version dbg params) w = (o, w') ->
    (exists extra, store w' = store w ++ extra)%list
    /\ (exists qs, sent w' = (sent w ++ qs)%list
                   /\ Forall (fun q => req_headers q = on_wire h version) qs)
    /\ (forall e, o = Raises e -> guard_error e).
Proof.
  induction fuel as [|fuel IH]; intros w o w' Hh; cbn [rate_limit].
  - intros [= <- <-]. split; [exists []; by rewrite app_nil_r|].
    split; [exists []; by rewrite app_nil_r|]. discriminate.
  - unfold IO.bind at 1.
    destruct params as [ps|].
    2:{ unfold send. io_simpl. intros [= <- <-].
        split; [exists []; by rewrite app_nil_r|].
        split; [exists []; by rewrite app_nil_r|].
        intros e [= <-]. left. reflexivity. }
    rewrite (send_effect _ _ _ _ _ _ h) by exact Hh.
    set (w1 := after_send self path data version dbg ps h w).
    assert (Hstore1 : store w1 = (store w ++ [on_wire h version])%list) by reflexivity.
    assert (Hsent1 : sent w1
                     = (sent w ++ [request_of self path data version ps h])%list)
      by reflexivity.
    assert (Hone : Forall (fun q => req_headers q = on_wire h version)
                          [request_of self path data version ps h]).
    { constructor; [reflexivity|constructor]. }
    destruct (incoming w) as [|r rs] eqn:Hin.
    { intros [= <- <-]. rewrite Hstore1, Hsent1. eauto 6 || (repeat split; eauto; discriminate). }
    destruct (((status_code r =? 403) || (status_code r =? 429)) && text r).
    2:{ unfold IO.ret. intros [= <- <-]. rewrite Hstore1, Hsent1.
        repeat split; eauto; discriminate. }
    unfold IO.bind at 1. unfold IO.lift at 1.
    destruct (json_of r) as [msg|e0] eqn:Hmsg.
    2:{ unfold IO.raise. intros [= <- <-]. rewrite Hstore1, Hsent1.
        repeat split; eauto. intros e [= <-].
        unfold json_of in Hmsg. destruct (body r); [discriminate|].
        injection Hmsg as <-. right; left; reflexivity. }
    unfold IO.ret at 1. unfold IO.bind at 1. unfold IO.lift at 1.
    destruct (is_rate_limit_message msg) as [limited|e0] eqn:Hlim.
    2:{ unfold IO.raise. intros [= <- <-]. rewrite Hstore1, Hsent1.
        repeat split; eauto. intros e [= <-].
        unfold is_rate_limit_message in Hlim.
        destruct msg; try (injection Hlim as <-; left; reflexivity).
        destruct (default (JStr "") (o !! "message"));
          try discriminate; injection Hlim as <-; left; reflexivity. }
    unfold IO.ret at 1.
    destruct limited.
    2:{ unfold IO.ret. intros [= <- <-]. rewrite Hstore1, Hsent1.
        repeat split; eauto; discriminate. }
    unfold IO.bind at 1.
    destruct (rate_limit_sleep (headers r) w1) as [o2 w2] eqn:Hsleep.
    apply rate_limit_sleep_frame in Hsleep as (_ & Hsent2 & Hstore2 & Herr2).
    destruct o2 as [[]|e2|hh].
    + intros Hrec. apply IH in Hrec as ([extra Hx] & (qs & Hqs & Hall) & Herr).
      * rewrite Hx, Hqs, Hstore2, Hsent2, Hstore1, Hsent1.
        split; [exists ([on_wire h version] ++ extra)%list; by rewrite app_assoc|].
        split; [|exact Herr].
        exists ([request_of self path data version ps h] ++ qs)%list.
        split; [by rewrite app_assoc|]. apply Forall_app; split; assumption.
      * rewrite Hstore2, Hstore1. apply lookup_app_l_Some. exact Hh.
    + intros [= <- <-]. rewrite Hstore2, Hsent2, Hstore1, Hsent1.
      repeat split; eauto. intros e [= <-]. right; right. eauto.
    + intros [= <- <-]. rewrite Hstore2, Hsent2, Hstore1, Hsent1.
      repeat split; eauto; discriminate.
Qed.

Lemma get_frame self path data version dbg (params : option Params) h w :
  store w !! api_headers self = Some h ->
  let o := fst (get self path data version dbg params w) in
  let w' := snd (get self path data version dbg params w) in
  store w' !! api_headers self = Some h
  /\ (exists qs, sent w' = (sent w ++ qs)%list
                  /\ Forall (fun q => req_headers q = on_wire h version) qs)
  /\ (forall e, o = Raises e -> guard_error e).
Proof.
  intros Hh o w'. subst o w'. unfold get.
  destruct (rate_limit (S (length (incoming w)))
              (send self path data version dbg params) w) as [o w'] eqn:Hrun.
  apply (rate_limit_send_frame _ _ _ _ _ _ h) in Hrun
    as ([extra Hx] & Hsent & Herr); [|exact Hh].
  simpl. split; [|split; assumption].
  rewrite Hx. apply lookup_app_l_Some. exact Hh.
Qed.

(** One turn of the guard on a live client, spelled out. *)
Lemma rate_limit_turn self path data version dbg ps h (fuel : nat) w :
  store w !! api_headers self = Some h ->
  rate_limit (S fuel) (send self path data version dbg (Some ps)) w
  = let w1 := after_send self path data version dbg ps h w in
    match incoming w with
    | [] => (Halts ScriptExhausted, w1)
    | r :: _ =>
        if looks_limited r
        then match json_of r with
             | Raise e => (Raises e, w1)
             | Ok msg =>
                 match is_rate_limit_message msg with
                 | Raise e => (Raises e, w1)
                 | Ok false => (Returns r, w1)
                 | Ok true =>
                     match rate_limit_sleep (headers r) w1 with
                     | (Returns _, w2) =>
                         rate_limit fuel (send self path data version dbg (Some ps)) w2
                     | (Raises e, w2) => (Raises e, w2)
                     | (Halts hh, w2) => (Halts hh, w2)
                     end
                 end
             end
        else (Returns r, w1)
    end.
Proof.
  intros Hh. cbn [rate_limit]. unfold IO.bind at 1.
  rewrite (send_effect _ _ _ _ _ _ h) by exact Hh.
  destruct (incoming w) as [|r rs]; [reflexivity|].
  unfold looks_limited.
  destruct (((status_code r =? 403) || (status_code r =? 429)) && text r);
    [|reflexivity].
  unfold IO.bind at 1. destruct (json_of r) as [msg|e]; [|reflexivity].
  cbn [IO.lift]. unfold IO.ret at 1. unfold IO.bind at 1.
  destruct (is_rate_limit_message msg) as [[]|e]; reflexivity.
Qed.

(** The guard takes at least one response off the script before it
    returns. *)
Lemma rate_limit_consumes self path data version dbg (params : option Params)
    h (fuel : nat) :
  forall w (r : Response) w',
    store w !! api_headers self = Some h ->
    rate_limit fuel (send self path data version dbg params) w = (Returns r, w') ->
    (length (incoming w') < length (incoming w))%nat.
Proof.
  induction fuel as [|fuel IH]; intros w r w' Hh; [discriminate|].
  destruct params as [ps|]; [|discriminate].
  rewrite (rate_limit_turn _ _ _ _ _ _ h) by exact Hh. cbv zeta.
  destruct (incoming w) as [|r0 rs] eqn:Hin; [discriminate|].
  assert (Htail : incoming (after_send self path data version dbg ps h w) = rs)
    by (unfold after_send; simpl; rewrite Hin; reflexivity).
  destruct (looks_limited r0).
  2:{ intros [= <- <-]. rewrite Htail. simpl. lia. }
  destruct (json_of r0) as [msg|e]; [|discriminate].
  destruct (is_rate_limit_message msg) as [[]|e]; [| |discriminate].
  2:{ intros [= <- <-]. rewrite Htail. simpl. lia. }
  destruct (rate_limit_sleep (headers r0)
              (after_send self path data version dbg ps h w)) as [[[]|e|hh] w2]
    eqn:Hsleep; [|discriminate|discriminate].
  apply rate_limit_sleep_frame in Hsleep as (Hin2 & _ & Hstore2 & _).
  intros Hrec. apply IH in Hrec.
  - rewrite Hin2, Htail in Hrec. simpl. lia.
  - rewrite Hstore2. unfold after_send. simpl.
    apply lookup_app_l_Some. exact Hh.
Qed.

(** Fuel beyond the length of the script changes nothing: the bound
    [get] gives its loop never cuts a run short. *)
Lemma rate_limit_fuel self path data version dbg (params : option Params) h :
  forall (fuel1 fuel2 : nat) w,
    store w !! api_headers self = Some h ->
    (length (incoming w) < fuel1)%nat ->
    (length (incoming w) < fuel2)%nat ->
    rate_limit fuel1 (send self path data version dbg params) w
    = rate_limit fuel2 (send self path data version dbg params) w.
Proof.
  induction fuel1 as [|fuel1 IH]; intros fuel2 w Hh H1 H2; [lia|].
  destruct fuel2 as [|fuel2]; [lia|].
  destruct params as [ps|]; [|reflexivity].
  rewrite !(rate_limit_turn _ _ _ _ _ _ h) by exact Hh. cbv zeta.
  destruct (incoming w) as [|r0 rs] eqn:Hin; [reflexivity|].
  assert (Htail : incoming (after_send self path data version dbg ps h w) = rs)
    by (unfold after_send; simpl; rewrite Hin; reflexivity).
  destruct (looks_limited r0); [|reflexivity].
  destruct (json_of r0) as [msg|e]; [|reflexivity].
  destruct (is_rate_limit_message msg) as [[]|e]; [|reflexivity|reflexivity].
  destruct (rate_limit_sleep (headers r0)
              (after_send self path data version dbg ps h w)) as [[[]|e|hh] w2]
    eqn:Hsleep; [|reflexivity|reflexivity].
  apply rate_limit_sleep_frame in Hsleep as (Hin2 & _ & Hstore2 & _).
  apply IH.
  - rewrite Hstore2. unfold after_send. simpl.
    apply lookup_app_l_Some. exact Hh.
  - rewrite Hin2, Htail. simpl in H1. lia.
  - rewrite Hin2, Htail. simpl in H2. lia.
Qed.

(** The headers an [Api] object is built with. *)
Definition built_headers (env : Requests) (token : string)
    (user_agent : option string) : Headers :=
  let d :=
    h_update
      (h_update
         (h_update
            (h_update ∅ "User-Agent" (default_user_agent env))
            "Accept-Encoding" (default_accept_encoding env))
         "Accept" "*/*")
      "Connection" "keep-alive" in
  let d := match user_agent with
           | Some ua => h_update d "User-Agent" ua
           | None => d
           end in
  h_update (h_update d "Accept" "application/vnd.github+json")
           "Authorization" ("Bearer: " +:+ token).

Lemma init_effect (env : Requests) (url token : string)
    (user_agent : option string) (dbg : bool) w :
  token <> "" ->
  init env url (Some token) user_agent dbg w
  = (Returns (mkApi dbg url token (length (store w))),
     mkWorld (clock w) (incoming w) (sent w) (slept w) (stdout w)
             (store w ++ [built_headers env token user_agent])).
Proof.
  intros Hne. unfold init.
  destruct (String.eqb_spec token ""); [contradiction|].
  unfold default_headers, built_headers, IO.alloc, IO.update. io_simpl.
  destruct user_agent as [ua|]; simpl;
    repeat (rewrite list_lookup_middle by reflexivity; simpl;
            rewrite insert_app_r_alt by reflexivity;
            rewrite Nat.sub_diag; simpl);
    reflexivity.
Qed.

Lemma built_headers_get (env : Requests) (token : string)
    (user_agent : option string) :
  let h := built_headers env token user_agent in
  h_get h "Authorization" = Some ("Bearer: " +:+ token)
  /\ h_get h "Accept" = Some "application/vnd.github+json"
  /\ h_get h "User-Agent" = Some (default (default_user_agent env) user_agent)
  /\ h_get h "X-GitHub-Api-Version" = None.
Proof.
  unfold built_headers, h_get, h_update.
  destruct user_agent; simpl; repeat split; by simplify_map_eq.
Qed.

(** C9: a call leaves the header object of the [Api] as it was; the
    version a call asks for is put on a copy that only the requests of
    that call carry; the requests of a later call carry the stored
    headers with the version of that later call alone, so when it asks
    for none the version of the earlier call is not among them. *)
Theorem version_override_does_not_leak self h w
    (path1 path2 : string) (data1 data2 version1 version2 : option string)
    (dbg1 dbg2 : option bool) (params1 params2 : option Params)
    (Hh : store w !! api_headers self = Some h) :
  let w1 := snd (get self path1 data1 version1 dbg1 params1 w) in
  let w2 := snd (get self path2 data2 version2 dbg2 params2 w1) in
  store w1 !! api_headers self = Some h
  /\ store w2 !! api_headers self = Some h
  /\ exists qs1 qs2,
      sent w1 = (sent w ++ qs1)%list
      /\ sent w2 = (sent w1 ++ qs2)%list
      /\ Forall (fun q => req_headers q = on_wire h version1) qs1
      /\ Forall (fun q => req_headers q = on_wire h version2) qs2
      /\ (version2 = None ->
          h_get h "X-GitHub-Api-Version" = None ->
          Forall (fun q => h_get (req_headers q) "X-GitHub-Api-Version" = None) qs2).
Proof.
  intros w1 w2.
  destruct (get_frame self path1 data1 version1 dbg1 params1 h w Hh)
    as (Hs1 & (qs1 & Hq1 & Hall1) & _).
  fold w1 in Hs1, Hq1.
  destruct (get_frame self path2 data2 version2 dbg2 params2 h w1 Hs1)
    as (Hs2 & (qs2 & Hq2 & Hall2) & _).
  fold w2 in Hs2, Hq2.
  split; [exact Hs1|]. split; [exact Hs2|].
  exists qs1, qs2. repeat split; try assumption.
  intros -> Hnone. eapply Forall_impl; [exact Hall2|].
  intros q ->. exact Hnone.
Qed.

End Transport.

(** ** Reasoning about runs: preconditions and postconditions *)

Section Triples.

(** [m] started in a world where [P] holds ends with [Q]. *)
Definition triple {A} (P : World -> Prop) (m : IO.t A)
    (Q : outcome A -> World -> Prop) : Prop :=
  forall w, P w -> Q (fst (m w)) (snd (m w)).

Lemma triple_bind {A B} (P : World -> Prop) (m : IO.t A) (k : A -> IO.t B)
    (R : A -> World -> Prop) (Q : outcome B -> World -> Prop) :
  triple P m (fun o w =>
                match o with
                | Returns a => R a w
                | Raises e => Q (Raises e) w
                | Halts hh => Q (Halts hh) w
                end) ->
  (forall a, triple (R a) (k a) Q) ->
  triple P (IO.bind m k) Q.
Proof.
  intros Hm Hk w HP. specialize (Hm w HP). unfold IO.bind.
  destruct (m w) as [[a|e|hh] w1]; simpl in *; auto.
  apply Hk. exact Hm.
Qed.

Lemma triple_lift {A} (P : World -> Prop) (r : result A)
    (Q : outcome A -> World -> Prop) :
  (forall w, P w ->
             match r with
             | Ok a => Q (Returns a) w
             | Raise e => Q (Raises e) w
             end) ->
  triple P (IO.lift r) Q.
Proof. intros H w HP. specialize (H w HP). destruct r; exact H. Qed.

Lemma triple_ret {A} (P : World -> Prop) (a : A) (Q : outcome A -> World -> Prop) :
  (forall w, P w -> Q (Returns a) w) -> triple P (IO.ret a) Q.
Proof. intros H w HP. apply H. exact HP. Qed.

Lemma triple_raise {A} (P : World -> Prop) (e : exn)
    (Q : outcome A -> World -> Prop) :
  (forall w, P w -> Q (Raises e) w) -> triple P (IO.raise e) Q.
Proof. intros H w HP. apply H. exact HP. Qed.

End Triples.

(** ** The paginated fetch *)

Section Pagination.

Import pull_request github.

Implicit Types (self : GitHub) (w : World) (h : Headers) (ps : Params).

(** The header object of the client is there. *)
Definition live self h w : Prop := store w !! api.api_headers (api self) = Some h.

Lemma print_live self h (p : printed) :
  triple (live self h) (IO.print p)
         (fun o w => live self h w /\ o = Returns tt).
Proof. intros w Hw. split; [exact Hw|reflexivity]. Qed.

Lemma get_live self h path data version dbg (params : option Params) :
  triple (live self h) (api.get (api self) path data version dbg params)
         (fun o w => live self h w /\ forall e, o = Raises e -> guard_error e).
Proof.
  intros w Hw.
  destruct (get_frame (api self) path data version dbg params h w Hw)
    as (Hs & _ & He).
  split; assumption.
Qed.

Lemma success_live self h (a : api.response_arg) (expected : Z) (output : bool) :
  triple (live self h) (api.success a expected output)
         (fun o w => live self h w /\ forall e, o = Raises e -> e = JSONDecodeError).
Proof.
  intros w Hw. unfold api.success. destruct a as [|v|r]; io_simpl.
  - split; [exact Hw|discriminate].
  - split; [exact Hw|discriminate].
  - destruct (status_code r =? expected); simpl; [split; [exact Hw|discriminate]|].
    destruct (text r && output); simpl; [|split; [exact Hw|discriminate]].
    unfold json_of. destruct (body r); simpl; split; try exact Hw; try discriminate.
    intros e [= <-]. reflexivity.
Qed.

(** Reading a field of a record and ordering it against a string fail
    with [AttributeError] or [TypeError] only. *)
Definition field_error (e : exn) : Prop := e = AttributeError \/ e = TypeError.

Lemma updated_raises (pr : PullRequest) (e : exn) :
  updated pr = Raise e -> field_error e.
Proof.
  unfold updated, Py.get. destruct (raw pr); intros [= <-]; left; reflexivity.
Qed.

Lemma lt_str_raises (u : json) (s : string) (e : exn) :
  lt_str u s = Raise e -> field_error e.
Proof. destruct u; intros [= <-]; right; reflexivity. Qed.

Lemma gt_str_raises (u : json) (s : string) (e : exn) :
  gt_str u s = Raise e -> field_error e.
Proof. destruct u; intros [= <-]; right; reflexivity. Qed.

Lemma filter_func_raises (oldest_date latest_date : option datetime.t)
    (pr : PullRequest) (e : exn) :
  filter_func oldest_date latest_date pr = Raise e -> field_error e.
Proof.
  unfold filter_func.
  destruct (bool_decide (oldest_date = None) && bool_decide (latest_date = None));
    [discriminate|].
  destruct oldest_date as [o|], latest_date as [l|]; simpl;
    destruct (updated pr) as [u|e0] eqn:Hu; simpl;
    try (intros [= <-]; eauto using updated_raises);
    try discriminate.
  - destruct (lt_str u (datetime.isoformat o)) as [[]|e1] eqn:H1; simpl;
      try discriminate; try (intros [= <-]; eauto using lt_str_raises).
    destruct (gt_str u (datetime.isoformat l)) as [[]|e2] eqn:H2; simpl;
      try discriminate. intros [= <-]; eauto using gt_str_raises.
  - destruct (lt_str u (datetime.isoformat o)) as [[]|e1] eqn:H1; simpl;
      try discriminate; intros [= <-]; eauto using lt_str_raises.
  - destruct (gt_str u (datetime.isoformat l)) as [[]|e2] eqn:H2; simpl;
      try discriminate; intros [= <-]; eauto using gt_str_raises.
Qed.

Lemma date_filter_raises (oldest_date latest_date : option datetime.t)
    (l : list PullRequest) (e : exn) :
  date_filter l oldest_date latest_date = Raise e -> field_error e.
Proof.
  unfold date_filter. induction l as [|x l IH]; simpl; [discriminate|].
  destruct (filter_func oldest_date latest_date x) as [keep|e0] eqn:Hx; simpl.
  - destruct (py_filter (filter_func oldest_date latest_date) l); simpl;
      [discriminate|]. intros [= <-]. apply IH. reflexivity.
  - intros [= <-]. eauto using filter_func_raises.
Qed.

(** The record [l[-1]] of a page that is not short exists when pages
    hold at least one record. *)
Lemma last_page_raises (partial_pull_reqs : list PullRequest) (per_page : Z)
    (oldest_date : option datetime.t) (e : exn) :
  1 <= per_page ->
  last_page partial_pull_reqs per_page oldest_date = Raise e ->
  field_error e.
Proof.
  intros Hpp. unfold last_page.
  destruct (Z.of_nat (length partial_pull_reqs) <? per_page) eqn:Hcount;
    [discriminate|].
  destruct oldest_date as [o|]; [|discriminate].
  unfold last_item.
  destruct (last partial_pull_reqs) as [x|] eqn:Hlast; simpl.
  - destruct (updated x) as [u|e0] eqn:Hu; simpl.
    + apply lt_str_raises.
    + intros [= <-]. eauto using updated_raises.
  - apply last_None in Hlast. subst partial_pull_reqs.
    apply Z.ltb_ge in Hcount. simpl in Hcount. lia.
Qed.

(** *** Pages as the specification speaks of them *)

(** The records of a response that is a page: status 200 and a JSON
    list as its body. *)
Definition page_items (r : Response) : option (list json) :=
  if status_code r =? 200
  then match body r with
       | BodyJson (JList items) => Some items
       | _ => None
       end
  else None.

Definition records_of (r : Response) : list PullRequest :=
  match page_items r with
  | Some items => map pull_request.mk items
  | None => []
  end.

(** A raw record whose [updated_at] is a string. *)
Definition dated (v : json) : bool :=
  match v with
  | JObj o =>
      match o !! "updated_at" with
      | Some (JStr _) => true
      | _ => false
      end
  | _ => false
  end.

(** The records must be dated as soon as a bound is given, since the
    filter and the end test then read [updated_at]. *)
Definition readable (oldest_date latest_date : option datetime.t) (v : json) : bool :=
  (bool_decide (oldest_date = None) && bool_decide (latest_date = None)) || dated v.

(** The end of the traversal in the words of the specification: fewer
    records than [per_page], or a last record updated strictly before
    the lower bound. *)
Definition ends_here (per_page : Z) (oldest_date : option datetime.t)
    (items : list json) : bool :=
  (Z.of_nat (length items) <? per_page)
  || match oldest_date, last items with
     | Some o, Some (JObj m) =>
         match m !! "updated_at" with
         | Some (JStr u) => str_lt u (datetime.isoformat o)
         | _ => false
         end
     | _, _ => false
     end.

Definition goes_on (per_page : Z) (oldest_date latest_date : option datetime.t)
    (r : Response) : bool :=
  match page_items r with
  | Some items =>
      forallb (readable oldest_date latest_date) items
      && negb (ends_here per_page oldest_date items)
  | None => false
  end.

Definition is_last (per_page : Z) (oldest_date latest_date : option datetime.t)
    (r : Response) : bool :=
  match page_items r with
  | Some items =>
      forallb (readable oldest_date latest_date) items
      && ends_here per_page oldest_date items
  | None => false
  end.

(** The page number a request asks for. *)
Definition page_number (q : Request) : option pval := dict_get (req_params q) "page".

Lemma dict_get_set_eq ps (k : string) (v : pval) :
  dict_get (dict_set ps k v) k = Some v.
Proof.
  induction ps as [|[k' v'] ps IH]; simpl.
  - rewrite String.eqb_refl. reflexivity.
  - destruct (String.eqb k' k) eqn:E; simpl; rewrite E; [reflexivity|exact IH].
Qed.

Lemma dict_get_set_ne ps (k k' : string) (v : pval) :
  k <> k' -> dict_get (dict_set ps k v) k' = dict_get ps k'.
Proof.
  intros Hne. induction ps as [|[k0 v0] ps IH]; simpl.
  - destruct (String.eqb_spec k k'); [contradiction|reflexivity].
  - destruct (String.eqb_spec k0 k) as [->|Hk]; simpl.
    + destruct (String.eqb_spec k k'); [contradiction|reflexivity].
    + destruct (String.eqb k0 k'); [reflexivity|exact IH].
Qed.

Lemma dated_updated (v : json) :
  dated v = true -> exists u, updated (pull_request.mk v) = Ok (JStr u).
Proof.
  unfold dated, updated, Py.get. simpl.
  destruct v as [| | | | |o]; try discriminate.
  destruct (o !! "updated_at") as [[| | |u| |]|]; try discriminate.
  intros _. exists u. reflexivity.
Qed.

Lemma filter_func_readable (oldest_date latest_date : option datetime.t) (v : json) :
  readable oldest_date latest_date v = true ->
  exists keep, filter_func oldest_date latest_date (pull_request.mk v) = Ok keep.
Proof.
  unfold readable, filter_func.
  destruct (bool_decide (oldest_date = None) && bool_decide (latest_date = None));
    simpl; [intros _; eauto|].
  intros Hd. apply dated_updated in Hd as [u Hu]. rewrite Hu.
  destruct oldest_date as [o|], latest_date as [l|]; simpl;
    repeat match goal with
           | |- context [if ?b then _ else _] => destruct b; simpl
           end; eauto.
Qed.

Lemma date_filter_readable (oldest_date latest_date : option datetime.t)
    (items : list json) :
  forallb (readable oldest_date latest_date) items = true ->
  exists kept,
    date_filter (map pull_request.mk items) oldest_date latest_date = Ok kept.
Proof.
  unfold date_filter. induction items as [|v items IH]; simpl; [eauto|].
  intros [Hv Hrest]%andb_prop.
  destruct (filter_func_readable _ _ _ Hv) as [keep ->].
  destruct (IH Hrest) as [kept ->]. simpl. eauto.
Qed.

Lemma last_map {A B} (f : A -> B) (l : list A) : last (map f l) = f <$> last l.
Proof.
  induction l as [|x [|y l] IH]; simpl in *; [reflexivity|reflexivity|exact IH].
Qed.

Lemma forallb_last {A} (f : A -> bool) (l : list A) (x : A) :
  forallb f l = true -> last l = Some x -> f x = true.
Proof.
  intros Hall [l' ->]%last_Some.
  rewrite forallb_app in Hall. apply andb_prop in Hall as [_ Hx].
  simpl in Hx. destruct (f x); [reflexivity|discriminate].
Qed.

(** On a readable page the end test of the loop computes the end
    condition of the specification. *)
Lemma last_page_readable (per_page : Z) (oldest_date latest_date : option datetime.t)
    (items : list json) :
  1 <= per_page ->
  forallb (readable oldest_date latest_date) items = true ->
  last_page (map pull_request.mk items) per_page oldest_date
  = Ok (ends_here per_page oldest_date items).
Proof.
  intros Hpp Hall. unfold last_page, ends_here. rewrite length_map.
  destruct (Z.of_nat (length items) <? per_page) eqn:Hcount; [reflexivity|].
  simpl. destruct oldest_date as [o|]; [|reflexivity].
  unfold last_item. rewrite last_map.
  destruct (last items) as [v|] eqn:Hlast; simpl.
  - pose proof (forallb_last _ _ _ Hall Hlast) as Hv.
    unfold readable in Hv. simpl in Hv.
    unfold updated, Py.get. simpl. unfold dated in Hv.
    destruct v as [| | | | |m]; try discriminate. simpl.
    destruct (m !! "updated_at") as [[| | |u| |]|]; try discriminate.
    reflexivity.
  - apply last_None in Hlast. subst items.
    apply Z.ltb_ge in Hcount. simpl in Hcount. lia.
Qed.

(** The world once the page about to be asked for has been announced. *)
Definition announced (debug : bool) ps w : World :=
  if debug
  then mkWorld (clock w) (incoming w) (sent w) (slept w)
               (stdout w ++ [PrPage (dict_get ps "page") (dict_get ps "per_page")])
               (store w)
  else w.

Lemma page_not_limited (r : Response) (items : list json) :
  page_items r = Some items ->
  looks_limited r = false /\ status_code r = 200
  /\ json_of r = Ok (JList items).
Proof.
  unfold page_items, looks_limited, json_of.
  destruct (status_code r =? 200) eqn:Hs; [|discriminate].
  apply Z.eqb_eq in Hs. rewrite Hs. simpl.
  destruct (body r) as [[| | | |l|]|]; try discriminate.
  intros [= ->]. repeat split; reflexivity.
Qed.

(** One turn of the loop on a readable page. *)
Lemma pages_step self h (path : string)
    (oldest_date latest_date : option datetime.t) (per_page : Z)
    (debug : bool) (kw : kwargs) (fuel : nat) ps (n : Z)
    (pull_reqs kept : list PullRequest) w (r : Response) (rs : list Response)
    (items : list json) :
  live self h w ->
  incoming w = r :: rs ->
  page_items r = Some items ->
  1 <= per_page ->
  forallb (readable oldest_date latest_date) items = true ->
  dict_get ps "page" = Some (PInt n) ->
  date_filter (map pull_request.mk items) oldest_date latest_date = Ok kept ->
  let ps' := dict_set ps "page" (PInt (n + 1)) in
  let w1 := after_send (api self) path (kw_data kw) (kw_version kw) (Some debug)
                       ps' h (announced debug ps' w) in
  pages (S fuel) self path oldest_date latest_date per_page debug kw ps pull_reqs w
  = if ends_here per_page oldest_date items
    then (Returns (pull_reqs ++ kept)%list, w1)
    else pages fuel self path oldest_date latest_date per_page debug kw ps'
               (pull_reqs ++ kept)%list w1.
Proof.
  intros Hlive Hin Hitems Hpp Hread Hpage Hkept ps' w1.
  destruct (page_not_limited _ _ Hitems) as (Hlim & Hstatus & Hjson).
  cbn [pages]. unfold next_page. rewrite Hpage. fold ps'.
  assert (Hlive' : live self h (announced debug ps' w))
    by (unfold announced; destruct debug; exact Hlive).
  assert (Hin' : incoming (announced debug ps' w) = r :: rs)
    by (unfold announced; destruct debug; exact Hin).
  assert (Hprint : (if debug
                    then IO.print (PrPage (dict_get ps' "page") (dict_get ps' "per_page"))
                    else IO.ret tt) w
                   = (Returns tt, announced debug ps' w))
    by (unfold announced; destruct debug; reflexivity).
  unfold IO.bind at 1. cbn [IO.lift]. unfold IO.ret at 1.
  unfold IO.bind at 1. rewrite Hprint.
  unfold IO.bind at 1.
  rewrite (get_unlimited _ _ _ _ _ _ h _ r rs Hlive' Hin' Hlim). fold w1.
  unfold IO.bind at 1.
  assert (Hok : api.success (api.Genuine r) 200 true w1 = (Returns true, w1)).
  { unfold api.success. io_simpl. rewrite Hstatus. reflexivity. }
  rewrite Hok. cbn [negb].
  unfold IO.bind at 1. rewrite Hjson. cbn [Py.bind iterate IO.lift].
  unfold IO.ret at 1.
  rewrite (last_page_readable _ _ latest_date _ Hpp Hread).
  unfold IO.bind at 1.
  destruct items as [|v items].
  - simpl in Hkept. injection Hkept as <-. rewrite app_nil_r.
    cbn [map length]. change (0 <? Z.of_nat 0) with false. cbv iota.
    unfold IO.ret at 1. unfold IO.bind at 1. cbn [IO.lift]. unfold IO.ret at 1.
    destruct (ends_here per_page oldest_date []); reflexivity.
  - rewrite Hkept.
    assert (Hpos : (0 <? Z.of_nat (length (map pull_request.mk (v :: items)))) = true).
    { apply Z.ltb_lt. simpl. lia. }
    rewrite Hpos. unfold IO.bind at 1. cbn [IO.lift]. unfold IO.ret at 1.
    unfold IO.ret at 1. unfold IO.bind at 1. cbn [IO.lift]. unfold IO.ret at 1.
    destruct (ends_here per_page oldest_date (v :: items)); reflexivity.
Qed.

Lemma goes_on_inv (per_page : Z) (oldest_date latest_date : option datetime.t)
    (r : Response) :
  goes_on per_page oldest_date latest_date r = true ->
  exists items,
    page_items r = Some items
    /\ forallb (readable oldest_date latest_date) items = true
    /\ ends_here per_page oldest_date items = false.
Proof.
  unfold goes_on. destruct (page_items r) as [items|]; [|discriminate].
  intros [Hr He]%andb_prop. exists items. repeat split; [exact Hr|].
  destruct (ends_here per_page oldest_date items); [discriminate|reflexivity].
Qed.

Lemma is_last_inv (per_page : Z) (oldest_date latest_date : option datetime.t)
    (r : Response) :
  is_last per_page oldest_date latest_date r = true ->
  exists items,
    page_items r = Some items
    /\ forallb (readable oldest_date latest_date) items = true
    /\ ends_here per_page oldest_date items = true.
Proof.
  unfold is_last. destruct (page_items r) as [items|]; [|discriminate].
  intros [Hr He]%andb_prop. exists items. repeat split; assumption.
Qed.

(** The loop on a script that begins with pages that go on, then a
    page that ends the traversal. *)
Lemma pages_run self h (path : string)
    (oldest_date latest_date : option datetime.t) (per_page : Z)
    (debug : bool) (kw : kwargs) (p : Response) (after : list Response)
    (Hpp : 1 <= per_page)
    (Hlast : is_last per_page oldest_date latest_date p = true) :
  forall (before : list Response) w ps (n : Z) (pull_reqs : list PullRequest)
         (fuel : nat),
    live self h w ->
    incoming w = (before ++ p :: after)%list ->
    forallb (goes_on per_page oldest_date latest_date) before = true ->
    dict_get ps "page" = Some (PInt n) ->
    (length before < fuel)%nat ->
    exists kept qs,
      date_filter (concat (map records_of (before ++ [p])%list))
                  oldest_date latest_date = Ok kept
      /\ fst (pages fuel self path oldest_date latest_date per_page debug kw
                    ps pull_reqs w) = Returns (pull_reqs ++ kept)%list
      /\ sent (snd (pages fuel self path oldest_date latest_date per_page debug kw
                          ps pull_reqs w)) = (sent w ++ qs)%list
      /\ map page_number qs
         = map (fun i => Some (PInt (n + Z.of_nat i))) (seq 1 (S (length before)))
      /\ incoming (snd (pages fuel self path oldest_date latest_date per_page
                              debug kw ps pull_reqs w)) = after.
Proof.
  induction before as [|r before IH];
    intros w ps n pull_reqs fuel Hlive Hin Hgo Hpage Hfuel;
    (destruct fuel as [|fuel]; [simpl in Hfuel; lia|]).
  - destruct (is_last_inv _ _ _ _ Hlast) as (items & Hitems & Hread & Hend).
    destruct (date_filter_readable _ _ _ Hread) as [kept Hkept].
    rewrite (pages_step self h path oldest_date latest_date per_page debug kw
               fuel ps n pull_reqs kept w p after items
               Hlive Hin Hitems Hpp Hread Hpage Hkept).
    rewrite Hend.
    exists kept,
      [request_of (api self) path (kw_data kw) (kw_version kw)
                  (dict_set ps "page" (PInt (n + 1))) h].
    simpl. unfold records_of. rewrite Hitems, app_nil_r.
    split; [exact Hkept|]. split; [reflexivity|].
    split; [unfold announced; destruct debug; reflexivity|].
    split.
    + unfold page_number. simpl. rewrite dict_get_set_eq. reflexivity.
    + unfold announced. destruct debug; simpl; rewrite Hin; reflexivity.
  - simpl in Hgo. apply andb_prop in Hgo as [Hr Hgo].
    destruct (goes_on_inv _ _ _ _ Hr) as (items & Hitems & Hread & Hend).
    destruct (date_filter_readable _ _ _ Hread) as [kept Hkept].
    rewrite (pages_step self h path oldest_date latest_date per_page debug kw
               fuel ps n pull_reqs kept w r (before ++ p :: after)%list items
               Hlive Hin Hitems Hpp Hread Hpage Hkept).
    rewrite Hend.
    set (ps' := dict_set ps "page" (PInt (n + 1))).
    set (w1 := after_send (api self) path (kw_data kw) (kw_version kw)
                          (Some debug) ps' h (announced debug ps' w)).
    assert (Hlive1 : live self h w1).
    { unfold live, w1, after_send. simpl. apply lookup_app_l_Some.
      unfold announced. destruct debug; exact Hlive. }
    assert (Hin1 : incoming w1 = (before ++ p :: after)%list).
    { unfold w1, after_send, announced. destruct debug; simpl; rewrite Hin; reflexivity. }
    assert (Hsent1 : sent w1
                     = (sent w ++ [request_of (api self) path (kw_data kw)
                                              (kw_version kw) ps' h])%list).
    { unfold w1, after_send, announced. destruct debug; reflexivity. }
    destruct (IH w1 ps' (n + 1) (pull_reqs ++ kept)%list fuel Hlive1 Hin1 Hgo)
      as (kept' & qs & Hkept' & Hres & Hsent & Hnums & Hrest).
    { apply dict_get_set_eq. }
    { simpl in Hfuel. lia. }
    exists (kept ++ kept')%list,
      (request_of (api self) path (kw_data kw) (kw_version kw) ps' h :: qs).
    split.
    { simpl. unfold date_filter in *. rewrite py_filter_app.
      unfold records_of at 1. rewrite Hitems, Hkept. simpl.
      rewrite Hkept'. reflexivity. }
    split; [rewrite Hres, app_assoc; reflexivity|].
    split; [rewrite Hsent, Hsent1, <- app_assoc; reflexivity|].
    split; [|exact Hrest].
    cbn [map length]. rewrite Hnums.
    change (seq 1 (S (S (length before)))) with (1%nat :: seq 2 (S (length before))).
    cbn [map]. f_equal.
    { unfold page_number. simpl. unfold ps'. rewrite dict_get_set_eq. reflexivity. }
    rewrite <- (seq_shift (S (length before)) 1), map_map.
    apply map_ext. intros i. do 2 f_equal. lia.
Qed.

(** A failed page whose body can be printed: the status is not 200, the
    guard lets the response through, and the body is empty or JSON. *)
Definition fails_printably (r : Response) : bool :=
  negb (status_code r =? 200) && negb (looks_limited r)
  && match body r with
     | BodyJson _ => true
     | BodyRaw s => String.eqb s ""
     end.

(** One turn of the loop on such a response. *)
Lemma pages_step_fail self h (path : string)
    (oldest_date latest_date : option datetime.t) (per_page : Z)
    (debug : bool) (kw : kwargs) (fuel : nat) ps (n : Z)
    (pull_reqs : list PullRequest) w (r : Response) (rs : list Response) :
  live self h w ->
  incoming w = r :: rs ->
  fails_printably r = true ->
  dict_get ps "page" = Some (PInt n) ->
  fst (pages (S fuel) self path oldest_date latest_date per_page debug kw ps
             pull_reqs w)
  = Raises GetPullRequestsError.
Proof.
  intros Hlive Hin Hfail Hpage.
  unfold fails_printably in Hfail.
  apply andb_prop in Hfail as [[Hstatus Hlim]%andb_prop Hbody].
  apply negb_true_iff in Hstatus, Hlim.
  cbn [pages]. unfold next_page. rewrite Hpage.
  set (ps' := dict_set ps "page" (PInt (n + 1))).
  assert (Hlive' : live self h (announced debug ps' w))
    by (unfold announced; destruct debug; exact Hlive).
  assert (Hin' : incoming (announced debug ps' w) = r :: rs)
    by (unfold announced; destruct debug; exact Hin).
  assert (Hprint : (if debug
                    then IO.print (PrPage (dict_get ps' "page") (dict_get ps' "per_page"))
                    else IO.ret tt) w
                   = (Returns tt, announced debug ps' w))
    by (unfold announced; destruct debug; reflexivity).
  unfold IO.bind at 1. cbn [IO.lift]. unfold IO.ret at 1.
  unfold IO.bind at 1. rewrite Hprint.
  unfold IO.bind at 1.
  rewrite (get_unlimited _ _ _ _ _ _ h _ r rs Hlive' Hin' Hlim).
  unfold IO.bind at 1. unfold api.success. io_simpl. rewrite Hstatus. simpl.
  unfold text, json_of. destruct (body r) as [v|s]; simpl; [reflexivity|].
  rewrite Hbody. reflexivity.
Qed.

(** After pages that go on, a failed page whose body can be printed
    makes the whole fetch raise [GetPullRequestsError]: the records kept
    so far are not returned. *)
Lemma pages_fail self h (path : string)
    (oldest_date latest_date : option datetime.t) (per_page : Z)
    (debug : bool) (kw : kwargs) (f : Response) (after : list Response)
    (Hpp : 1 <= per_page)
    (Hfail : fails_printably f = true) :
  forall (before : list Response) w ps (n : Z) (pull_reqs : list PullRequest)
         (fuel : nat),
    live self h w ->
    incoming w = (before ++ f :: after)%list ->
    forallb (goes_on per_page oldest_date latest_date) before = true ->
    dict_get ps "page" = Some (PInt n) ->
    (length before < fuel)%nat ->
    fst (pages fuel self path oldest_date latest_date per_page debug kw
               ps pull_reqs w) = Raises GetPullRequestsError.
Proof.
  induction before as [|r before IH];
    intros w ps n pull_reqs fuel Hlive Hin Hgo Hpage Hfuel;
    (destruct fuel as [|fuel]; [simpl in Hfuel; lia|]).
  - exact (pages_step_fail self h path oldest_date latest_date per_page debug kw
             fuel ps n pull_reqs w f after Hlive Hin Hfail Hpage).
  - simpl in Hgo. apply andb_prop in Hgo as [Hr Hgo].
    destruct (goes_on_inv _ _ _ _ Hr) as (items & Hitems & Hread & Hend).
    destruct (date_filter_readable _ _ _ Hread) as [kept Hkept].
    rewrite (pages_step self h path oldest_date latest_date per_page debug kw
               fuel ps n pull_reqs kept w r (before ++ f :: after)%list items
               Hlive Hin Hitems Hpp Hread Hpage Hkept).
    rewrite Hend.
    apply (IH _ _ (n + 1)).
    + unfold live, after_send. simpl. apply lookup_app_l_Some.
      unfold announced. destruct debug; exact Hlive.
    + unfold after_send, announced. destruct debug; simpl; rewrite Hin; reflexivity.
    + exact Hgo.
    + apply dict_get_set_eq.
    + simpl in Hfuel. lia.
Qed.

Lemma index_error_is_no_field_error (e : exn) :
  field_error e -> Raises (A := list PullRequest) e <> Raises IndexError.
Proof. intros [-> | ->]; discriminate. Qed.

(** With pages of at least one record asked for, no turn of the loop
    raises [IndexError], whatever the transport answers. *)
Lemma pages_never_index_error self h (path : string)
    (oldest_date latest_date : option datetime.t) (per_page : Z)
    (debug : bool) (kw : kwargs) (fuel : nat) :
  1 <= per_page ->
  forall ps (pull_reqs : list PullRequest),
    triple (live self h)
           (pages fuel self path oldest_date latest_date per_page debug kw ps pull_reqs)
           (fun o _ => o <> Raises IndexError).
Proof.
  intros Hpp. induction fuel as [|fuel IH]; intros ps pull_reqs; cbn [pages].
  { intros w _. discriminate. }
  apply triple_bind with (R := fun _ w => live self h w).
  { apply triple_lift. intros w Hw. unfold next_page.
    destruct (dict_get ps "page") as [[n|s]|]; [exact Hw|discriminate|discriminate]. }
  intros ps'. apply triple_bind with (R := fun _ w => live self h w).
  { destruct debug; [|apply triple_ret; auto].
    intros w Hw. exact Hw. }
  intros _. apply triple_bind with (R := fun _ w => live self h w).
  { intros w Hw.
    destruct (get_live self h path (kw_data kw) (kw_version kw) (Some debug)
                       (Some ps') w Hw) as [Hl He].
    destruct (fst (api.get (api self) path (kw_data kw) (kw_version kw)
                           (Some debug) (Some ps') w)) as [r|e|hh];
      [exact Hl| |discriminate].
    destruct (He e eq_refl) as [->|[->| ->]]; discriminate. }
  intros response. apply triple_bind with (R := fun _ w => live self h w).
  { intros w Hw.
    destruct (success_live self h (api.Genuine response) 200 true w Hw) as [Hl He].
    destruct (fst (api.success (api.Genuine response) 200 true w)) as [b|e|hh];
      [exact Hl| |discriminate].
    rewrite (He e eq_refl). discriminate. }
  intros ok. destruct ok; simpl; [|apply triple_raise; discriminate].
  apply triple_bind with (R := fun _ w => live self h w).
  { apply triple_lift. intros w Hw. unfold json_of, iterate.
    destruct (body response) as [v|s]; simpl; [|discriminate].
    destruct v; simpl; try exact Hw; discriminate. }
  intros items. apply triple_bind with (R := fun _ w => live self h w).
  { destruct (0 <? Z.of_nat (length (map pull_request.mk items)));
      [|apply triple_ret; auto].
    apply triple_bind with (R := fun _ w => live self h w);
      [|intros kept; apply triple_ret; auto].
    apply triple_lift. intros w Hw.
    destruct (date_filter (map pull_request.mk items) oldest_date latest_date)
      as [kept|e] eqn:Hf; [exact Hw|].
    apply index_error_is_no_field_error. eauto using date_filter_raises. }
  intros pull_reqs'. apply triple_bind with (R := fun _ w => live self h w).
  { apply triple_lift. intros w Hw.
    destruct (last_page (map pull_request.mk items) per_page oldest_date)
      as [stop|e] eqn:Hs; [exact Hw|].
    apply index_error_is_no_field_error. eauto using last_page_raises. }
  intros stop. destruct stop; [apply triple_ret; discriminate|].
  apply IH.
Qed.

Lemma bind_cong {A B} (m : IO.t A) (k1 k2 : A -> IO.t B) w :
  (forall a w1, m w = (Returns a, w1) -> k1 a w1 = k2 a w1) ->
  IO.bind m k1 w = IO.bind m k2 w.
Proof.
  intros H. unfold IO.bind. destruct (m w) as [[a|e|hh] w1]; auto.
Qed.

Lemma lift_returns {A} (r : result A) (a : A) w w1 :
  IO.lift r w = (Returns a, w1) -> w1 = w.
Proof. destruct r; intros [= _ <-] || discriminate. reflexivity. Qed.

Lemma success_frame (a : api.response_arg) (expected : Z) (output : bool)
    (o : outcome bool) w w' :
  api.success a expected output w = (o, w') ->
  incoming w' = incoming w /\ store w' = store w.
Proof.
  unfold api.success. destruct a as [|v|r]; io_simpl;
    try (intros [= _ <-]; split; reflexivity).
  destruct (status_code r =? expected); simpl;
    [intros [= _ <-]; split; reflexivity|].
  destruct (text r && output); simpl; [|intros [= _ <-]; split; reflexivity].
  unfold json_of. destruct (body r); simpl; intros [= _ <-]; split; reflexivity.
Qed.

Lemma get_returns self h path data version dbg (params : option Params)
    (r : Response) w w1 :
  live self h w ->
  api.get (api self) path data version dbg params w = (Returns r, w1) ->
  live self h w1 /\ (length (incoming w1) < length (incoming w))%nat.
Proof.
  intros Hlive Hget. split.
  - destruct (get_frame (api self) path data version dbg params h w Hlive)
      as (Hs & _). rewrite Hget in Hs. exact Hs.
  - unfold api.get in Hget.
    exact (rate_limit_consumes _ _ _ _ _ _ h _ _ _ _ Hlive Hget).
Qed.

(** Fuel beyond the length of the script changes nothing: the bound
    [get_pull_requests] gives its loop never cuts a run short. *)
Lemma pages_fuel self h (path : string)
    (oldest_date latest_date : option datetime.t) (per_page : Z)
    (debug : bool) (kw : kwargs) :
  forall (fuel1 fuel2 : nat) ps (pull_reqs : list PullRequest) w,
    live self h w ->
    (length (incoming w) < fuel1)%nat ->
    (length (incoming w) < fuel2)%nat ->
    pages fuel1 self path oldest_date latest_date per_page debug kw ps pull_reqs w
    = pages fuel2 self path oldest_date latest_date per_page debug kw ps pull_reqs w.
Proof.
  induction fuel1 as [|fuel1 IH]; intros fuel2 ps pull_reqs w Hlive H1 H2; [lia|].
  destruct fuel2 as [|fuel2]; [lia|]. cbn [pages].
  apply bind_cong. intros ps' w1 E1. apply lift_returns in E1. subst w1.
  apply bind_cong. intros u w2 E2.
  assert (Hw2 : live self h w2 /\ incoming w2 = incoming w).
  { destruct debug; inversion E2; subst w2; split; (exact Hlive || reflexivity). }
  destruct Hw2 as [Hlive2 Hin2].
  apply bind_cong. intros response w3 E3.
  apply (get_returns self h) in E3 as [Hlive3 Hlen3]; [|exact Hlive2].
  apply bind_cong. intros ok w4 E4.
  apply success_frame in E4 as [Hin4 Hstore4].
  destruct (negb ok); [reflexivity|].
  apply bind_cong. intros items w5 E5. apply lift_returns in E5. subst w5.
  apply bind_cong. intros pull_reqs' w6 E6.
  assert (w6 = w4) as ->.
  { destruct (0 <? Z.of_nat (length (map pull_request.mk items)));
      [|injection E6 as _ <-; reflexivity].
    unfold IO.bind in E6.
    destruct (date_filter (map pull_request.mk items) oldest_date latest_date);
      simpl in E6; [injection E6 as _ <-; reflexivity|discriminate]. }
  apply bind_cong. intros stop w7 E7. apply lift_returns in E7. subst w7.
  destruct stop; [reflexivity|].
  apply IH.
  - unfold live. rewrite Hstore4. exact Hlive3.
  - rewrite Hin4. rewrite Hin2 in Hlen3. lia.
  - rewrite Hin4. rewrite Hin2 in Hlen3. lia.
Qed.

(** C10: with [per_page >= 1] an empty page ends the loop at the count
    test, so the test never reads [partial_pull_reqs[-1]] of an empty
    list: neither the test nor any run of [get_pull_requests] raises
    [IndexError]. *)
Theorem last_record_read_only_on_nonempty_page self h w
    (owner repo : string) (oldest_date latest_date : option datetime.t)
    (per_page : Z) (params : option Params) (debug : bool) (kw : kwargs)
    (Hpp : 1 <= per_page)
    (Hlive : live self h w) :
  last_page [] per_page oldest_date = Ok true
  /\ (forall partial_pull_reqs,
        last_page partial_pull_reqs per_page oldest_date <> Raise IndexError)
  /\ fst (get_pull_requests self owner repo oldest_date latest_date per_page
                            params debug kw w)
     <> Raises IndexError.
Proof.
  split; [|split].
  - unfold last_page. cbn [length]. change (Z.of_nat 0) with 0.
    destruct (0 <? per_page) eqn:E; [reflexivity|].
    apply Z.ltb_ge in E. lia.
  - intros partial_pull_reqs Hraise.
    destruct (last_page_raises _ _ _ _ Hpp Hraise); discriminate.
  - unfold get_pull_requests.
    exact (pages_never_index_error self h _ oldest_date latest_date per_page
             debug kw _ Hpp _ [] w Hlive).
Qed.

(** What the fetch does by design on a failed page: when the body of
    the failed response is empty or JSON, the fetch raises
    [GetPullRequestsError] and the records of the pages read before are
    not returned. *)
Lemma fetch_fails_on_printable_failure self h w
    (owner repo : string) (oldest_date latest_date : option datetime.t)
    (per_page : Z) (params : option Params) (debug : bool) (kw : kwargs)
    (before : list Response) (f : Response) (after : list Response) :
  live self h w ->
  1 <= per_page ->
  incoming w = (before ++ f :: after)%list ->
  forallb (goes_on per_page oldest_date latest_date) before = true ->
  fails_printably f = true ->
  fst (get_pull_requests self owner repo oldest_date latest_date per_page
                         params debug kw w)
  = Raises GetPullRequestsError.
Proof.
  intros Hlive Hpp Hin Hgo Hfail. unfold get_pull_requests.
  set (ps := dict_set _ "direction" _).
  apply (pages_fail self h _ oldest_date latest_date per_page debug kw f after
           Hpp Hfail before w ps 0 [] _ Hlive Hin Hgo).
  - unfold ps. rewrite !dict_get_set_ne by discriminate. apply dict_get_set_eq.
  - rewrite Hin, length_app. simpl. lia.
Qed.

(** C1: on a script of pages that go on, followed by a page that ends
    the traversal (fewer records than [per_page], or a last record
    updated strictly before [oldest_date.isoformat()]), the fetch asks
    for the pages 1, 2, ... up to that page and for no other: the
    responses after it stay on the script. It returns what the date
    filter keeps of the pages it read. *)
Theorem pagination_stops_at_first_ending_page self h w
    (owner repo : string) (oldest_date latest_date : option datetime.t)
    (per_page : Z) (params : option Params) (debug : bool) (kw : kwargs)
    (before : list Response) (p : Response) (after : list Response)
    (Hlive : live self h w)
    (Hpp : 1 <= per_page)
    (Hin : incoming w = (before ++ p :: after)%list)
    (Hgo : forallb (goes_on per_page oldest_date latest_date) before = true)
    (Hlast : is_last per_page oldest_date latest_date p = true) :
  let run := get_pull_requests self owner repo oldest_date latest_date per_page
                               params debug kw w in
  exists kept qs,
    date_filter (concat (map records_of (before ++ [p])%list))
                oldest_date latest_date = Ok kept
    /\ fst run = Returns kept
    /\ sent (snd run) = (sent w ++ qs)%list
    /\ map page_number qs
       = map (fun i => Some (PInt (Z.of_nat i))) (seq 1 (S (length before)))
    /\ incoming (snd run) = after.
Proof.
  intros run. subst run. unfold get_pull_requests.
  set (ps := dict_set _ "direction" _).
  assert (Hpage : dict_get ps "page" = Some (PInt 0)).
  { unfold ps. rewrite !dict_get_set_ne by discriminate. apply dict_get_set_eq. }
  assert (Hfuel : (length before < S (length (incoming w)))%nat).
  { rewrite Hin, length_app. simpl. lia. }
  destruct (pages_run self h
              ("repos" +:+ "/" +:+ owner +:+ "/" +:+ repo +:+ "/" +:+ "pulls")
              oldest_date latest_date per_page debug kw p after Hpp Hlast
              before w ps 0 [] (S (length (incoming w)))
              Hlive Hin Hgo Hpage Hfuel)
    as (kept & qs & Hkept & Hres & Hsent & Hnums & Hrest).
  exists kept, qs. repeat split; assumption.
Qed.

End Pagination.

(** ** A client at work *)

Section Scenario.

Import pull_request github.

Definition env0 : api.Requests :=
  api.mkRequests "python-requests/2.31.0" "gzip, deflate".

(** The client [Api(token='abc')] once built: its headers are object 0. *)
Definition client : api.Api := api.mkApi false api.API_URL "abc" 0.
Definition client_headers : Headers := built_headers env0 "abc" None.
Definition hub : GitHub := github.mk client.

Definition record (number : Z) (updated_at : string) : json :=
  JObj (<["number" := JNum number]>
        (<["state" := JStr "open"]>
         (<["updated_at" := JStr updated_at]> ∅))).

Definition page (items : list json) : Response :=
  mkResponse 200 ∅ (BodyJson (JList items)).

Definition page1 : Response :=
  page [record 9 "2024-03-05T10:00:00Z"; record 8 "2024-03-04T10:00:00Z"].
Definition page2 : Response :=
  page [record 7 "2024-03-03T10:00:00Z"; record 6 "2024-02-01T10:00:00Z"].
Definition page3 : Response :=
  page [record 5 "2024-01-03T10:00:00Z"; record 4 "2024-01-01T10:00:00Z"].

Definition not_found : Response :=
  mkResponse 404 ∅ (BodyJson (JObj (<["message" := JStr "Not Found"]> ∅))).

Definition march_first : datetime.t := datetime.mk 2024 3 1 0 0 0 0.

Definition world_of (script : list Response) : World :=
  mkWorld 1000 script [] [] [] [client_headers].

Definition no_kwargs : kwargs := mk_kwargs None None.

Definition numbers (prs : list PullRequest) : list (result json) :=
  map (fun pr => Py.get (raw pr) "number") prs.

(** Three pages of two records on the script, two records asked per
    page, nothing older than 1 March wanted: pages 1 and 2 are asked
    for, page 3 stays where it is. *)
Lemma pagination_stops_at_first_ending_page_witness :
  let run := get_pull_requests hub "o" "r" (Some march_first) None 2 None false
                               no_kwargs (world_of [page1; page2; page3]) in
  exists kept qs,
    date_filter (concat (map records_of [page1; page2])) (Some march_first) None
    = Ok kept
    /\ fst run = Returns kept
    /\ sent (snd run) = qs
    /\ map page_number qs = [Some (PInt 1); Some (PInt 2)]
    /\ incoming (snd run) = [page3].
Proof.
  apply (pagination_stops_at_first_ending_page hub client_headers
           (world_of [page1; page2; page3]) "o" "r" (Some march_first) None 2
           None false no_kwargs [page1] page2 [page3]).
  - reflexivity.
  - lia.
  - reflexivity.
  - vm_compute. reflexivity.
  - vm_compute. reflexivity.
Defined.

Lemma version_override_does_not_leak_witness :
  let w := world_of [page1; page2] in
  let w1 := snd (api.get client "repos/o/r/pulls" None (Some "2022-11-28") None
                         (Some []) w) in
  let w2 := snd (api.get client "repos/o/r/pulls" None None None (Some []) w1) in
  store w1 !! 0%nat = Some client_headers
  /\ store w2 !! 0%nat = Some client_headers
  /\ map (fun q => h_get (req_headers q) "X-GitHub-Api-Version") (sent w2)
     = [Some "2022-11-28"; None].
Proof.
  intros w w1 w2.
  destruct (version_override_does_not_leak client client_headers w
              "repos/o/r/pulls" "repos/o/r/pulls" None None (Some "2022-11-28")
              None None None (Some []) (Some []) eq_refl)
    as (H1 & H2 & _).
  split; [exact H1|]. split; [exact H2|]. vm_compute. reflexivity.
Defined.

Lemma last_record_read_only_on_nonempty_page_witness :
  last_page [] 2 (Some march_first) = Ok true
  /\ fst (get_pull_requests hub "o" "r" (Some march_first) None 2 None false
                            no_kwargs (world_of [page []]))
     <> Raises IndexError.
Proof.
  destruct (last_record_read_only_on_nonempty_page hub client_headers
              (world_of [page []]) "o" "r" (Some march_first) None 2 None false
              no_kwargs)
    as (H1 & _ & H3); [lia | reflexivity |].
  split; [exact H1 | exact H3].
Defined.

(** Without the bound on [per_page] the access does fail: no record
    asked per page, an empty page, a lower bound given. *)
Example index_error_when_no_record_is_asked_for :
  fst (get_pull_requests hub "o" "r" (Some march_first) None 0 None false
                         no_kwargs (world_of [page []]))
  = Raises IndexError.
Proof. vm_compute. reflexivity. Qed.

(** C3 at its failing input: page 1 is read, page 2 is answered with a
    502 and an HTML body. The fetch does fail and returns nothing, but
    with the decoding error of the diagnostic print, not with
    [GetPullRequestsError]; a failure whose body is JSON gives
    [GetPullRequestsError]. *)
Theorem fetch_fails_with_decoding_error :
  fst (get_pull_requests hub "o" "r" None None 2 None false no_kwargs
                         (world_of [page1; bad_gateway; page3]))
  = Raises JSONDecodeError
  /\ fst (get_pull_requests hub "o" "r" None None 2 None false no_kwargs
                            (world_of [page1; not_found; page3]))
     = Raises GetPullRequestsError.
Proof. split; vm_compute; reflexivity. Qed.

(** Every request of a client built with a token carries the headers
    the constructor wrote. *)
Lemma requests_carry_built_headers (env : api.Requests) (url token : string)
    (user_agent : option string) (dbg : bool) (w : World)
    (path : string) (data version : option string) (dbg' : option bool)
    (params : option Params) :
  token <> "" ->
  exists self w0,
    api.init env url (Some token) user_agent dbg w = (Returns self, w0)
    /\ exists qs,
        sent (snd (api.get self path data version dbg' params w0))
        = (sent w ++ qs)%list
        /\ Forall (fun q =>
                     h_get (req_headers q) "Authorization"
                     = Some ("Bearer: " +:+ token)
                     /\ h_get (req_headers q) "Accept"
                        = Some "application/vnd.github+json"
                     /\ h_get (req_headers q) "User-Agent"
                        = Some (default (api.default_user_agent env) user_agent))
                  qs.
Proof.
  intros Hne. eexists _, _. split; [apply init_effect; exact Hne|].
  match goal with
  | |- context [api.get ?self _ _ _ _ _ ?w0] =>
      destruct (get_frame self path data version dbg' params
                          (built_headers env token user_agent) w0)
        as (_ & (qs & Hqs & Hall) & _)
  end.
  { simpl. apply list_lookup_middle. reflexivity. }
  exists qs. split; [exact Hqs|].
  eapply Forall_impl; [exact Hall|]. intros q ->.
  destruct (built_headers_get env token user_agent) as (Ha & Hb & Hc & _).
  unfold on_wire. destruct version as [v|]; [|repeat split; assumption].
  unfold h_get, h_update in *. simpl in *.
  rewrite !lookup_insert_ne by discriminate. repeat split; assumption.
Qed.

(** C6 at its failing input: a client built with the token [abc] sends
    [Authorization: Bearer: abc], with a colon after the scheme. *)
Theorem authorization_header_has_a_colon :
  let run := (self <~ api.init env0 api.API_URL (Some "abc") None false ;;
              api.get self "repos/o/r/pulls" None None None (Some []))
               (mkWorld 1000 [page1] [] [] [] []) in
  map (fun q => h_get (req_headers q) "Authorization") (sent (snd run))
  = [Some "Bearer: abc"]
  /\ "Bearer: abc" <> "Bearer abc".
Proof. split; [vm_compute; reflexivity | discriminate]. Qed.

End Scenario.

(** * More of the code *)

(** ** The record: titles and ages *)

Section RecordMore.

Import pull_request.






(** The age of a merged record runs from its creation to its merge: it
    is the same whenever it is read. *)
Theorem age_of_merged_record (self : PullRequest) (c m : string)
    (born done : datetime.t)
    (Hcreated : created self = Ok (JStr c))
    (Hborn : datetime.fromisoformat c = Ok born)
    (Hmerged : merged self = Ok (JStr m))
    (Hdone : datetime.fromisoformat m = Ok done) :
  forall now : datetime.t,
    age self now
    = Ok (format_age (elapsed done born / 86400)
            (PrimFloat.div (fmt.float_of_int (elapsed done born mod 86400))
                           3600%float)).
Proof.
  intros now. unfold age, isMerged, Py.bind. rewrite Hcreated. cbv iota beta.
  unfold parse_naive at 1. rewrite Hborn, Hmerged. cbv iota beta.
  unfold is_none, parse_naive. cbv iota beta. rewrite Hdone. cbv iota beta.
  destruct (sub_floor done born) as [-> ->]. reflexivity.
Qed.

Definition merged_in_a_week : PullRequest :=
  mk (JObj (<["created_at" := JStr "2024-01-01T08:00:00Z"]>
            (<["merged_at" := JStr "2024-01-08T20:00:00Z"]> ∅))).

Lemma age_of_merged_record_witness :
  age merged_in_a_week (datetime.mk 2024 6 1 0 0 0 0) = Ok "   7d 12.0h"
  /\ age merged_in_a_week (datetime.mk 2030 1 1 0 0 0 0) = Ok "   7d 12.0h".
Proof.
  split;
    rewrite (age_of_merged_record merged_in_a_week
               "2024-01-01T08:00:00Z" "2024-01-08T20:00:00Z"
               (datetime.mk 2024 1 1 8 0 0 0) (datetime.mk 2024 1 8 20 0 0 0)
               eq_refl eq_refl eq_refl eq_refl);
    reflexivity.
Defined.

(** Without a creation time there is no age: a record whose payload is
    a dict with no string under [created_at] makes [age] raise
    [TypeError], whatever its other fields. *)
Theorem age_without_creation_time (self : PullRequest) (o : gmap string json)
    (now : datetime.t)
    (Hraw : raw self = JObj o)
    (Hmissing : forall s, o !! "created_at" <> Some (JStr s)) :
  age self now = Raise TypeError.
Proof.
  unfold age, created, Py.get. rewrite Hraw. cbn [Py.bind].
  destruct (o !! "created_at") as [[| | |s| |]|] eqn:Hc; try reflexivity.
  exfalso. exact (Hmissing s eq_refl).
Qed.

Lemma age_without_creation_time_witness :
  age closed_unmerged (datetime.mk 2024 6 1 0 0 0 0) = Raise TypeError.
Proof.
  apply (age_without_creation_time closed_unmerged
           (<["closed_at" := JStr "2024-01-02T00:00:00Z"]>
              (<["merged_at" := JNull]> ∅))).
  - reflexivity.
  - intros s. vm_compute. discriminate.
Defined.

End RecordMore.

(** ** The filters *)

Section FiltersMore.

Import pull_request github.

(** The range test of [filter_func] on a timestamp. *)
Definition in_range (oldest_date latest_date : option datetime.t) (u : string) : bool :=
  match oldest_date with
  | Some o => negb (str_lt u (datetime.isoformat o))
  | None => true
  end
  && match latest_date with
     | Some l => negb (str_gt u (datetime.isoformat l))
     | None => true
     end.

Definition within (oldest_date latest_date : option datetime.t)
    (pr : PullRequest) : bool :=
  match updated pr with
  | Ok (JStr u) => in_range oldest_date latest_date u
  | _ => false
  end.

Lemma filter_func_dated (oldest_date latest_date : option datetime.t) (v : json) :
  dated v = true ->
  filter_func oldest_date latest_date (pull_request.mk v)
  = Ok (within oldest_date latest_date (pull_request.mk v)).
Proof.
  intros Hd. apply dated_updated in Hd as [u Hu].
  unfold filter_func, within, in_range. rewrite Hu.
  destruct oldest_date as [o|], latest_date as [l|]; simpl;
    repeat match goal with
           | |- context [str_lt ?a ?b] => destruct (str_lt a b); simpl
           | |- context [str_gt ?a ?b] => destruct (str_gt a b); simpl
           end; reflexivity.
Qed.

(** On records that carry a string [updated_at] the date filter never
    fails and keeps, in their order, exactly the records whose
    timestamp is not before [oldest_date.isoformat()] and not after
    [latest_date.isoformat()], an unset bound excluding nothing. *)
Theorem date_filter_keeps_range (oldest_date latest_date : option datetime.t)
    (items : list json)
    (Hdated : forallb dated items = true) :
  date_filter (map pull_request.mk items) oldest_date latest_date
  = Ok (List.filter (within oldest_date latest_date) (map pull_request.mk items)).
Proof.
  unfold date_filter. induction items as [|v items IH]; [reflexivity|].
  simpl in Hdated. apply andb_prop in Hdated as [Hv Hrest].
  cbn [map py_filter List.filter]. rewrite (filter_func_dated _ _ _ Hv).
  cbn [Py.bind]. rewrite (IH Hrest). cbn [Py.bind].
  destruct (within oldest_date latest_date (pull_request.mk v)); reflexivity.
Qed.

Lemma date_filter_keeps_range_witness :
  (r <- date_filter
          (map pull_request.mk
               [record 7 "2024-03-03T10:00:00Z"; record 6 "2024-02-01T10:00:00Z"])
          (Some march_first) None ;;
   Ok (numbers r))
  = Ok [Ok (JNum 7)].
Proof.
  rewrite (date_filter_keeps_range (Some march_first) None
             [record 7 "2024-03-03T10:00:00Z"; record 6 "2024-02-01T10:00:00Z"]
             eq_refl).
  vm_compute. reflexivity.
Defined.

(** Filtering what the filter kept changes nothing. *)
Theorem date_filter_idempotent (oldest_date latest_date : option datetime.t)
    (pull_requests kept : list PullRequest)
    (Hkept : date_filter pull_requests oldest_date latest_date = Ok kept) :
  date_filter kept oldest_date latest_date = Ok kept.
Proof.
  unfold date_filter in *. revert kept Hkept.
  induction pull_requests as [|x l IH]; intros kept Hkept; simpl in Hkept.
  - injection Hkept as <-. reflexivity.
  - destruct (filter_func oldest_date latest_date x) as [keep|e] eqn:Hx;
      simpl in Hkept; [|discriminate].
    destruct (py_filter (filter_func oldest_date latest_date) l) as [rest|e];
      simpl in Hkept; [|discriminate].
    injection Hkept as <-. destruct keep; [|apply IH; reflexivity].
    simpl. rewrite Hx. simpl. rewrite (IH rest eq_refl). reflexivity.
Qed.

Lemma date_filter_idempotent_witness :
  date_filter [pull_request.mk (record 7 "2024-03-03T10:00:00Z")]
              (Some march_first) None
  = Ok [pull_request.mk (record 7 "2024-03-03T10:00:00Z")].
Proof.
  apply (date_filter_idempotent (Some march_first) None (records_of page2)).
  vm_compute. reflexivity.
Defined.

(** With a bound given, one record without a string [updated_at] among
    records that are dicts makes the whole filter raise [TypeError]:
    no record is returned, not even the ones in range. *)
Theorem date_filter_undated_record (oldest_date latest_date : option datetime.t)
    (pull_requests : list PullRequest)
    (Hbound : oldest_date <> None \/ latest_date <> None)
    (Hdicts : Forall (fun pr => exists o, raw pr = JObj o) pull_requests)
    (Hundated : Exists (fun pr => forall s, updated pr <> Ok (JStr s)) pull_requests) :
  date_filter pull_requests oldest_date latest_date = Raise TypeError.
Proof.
  unfold date_filter.
  assert (Hstep : forall pr,
             (exists o, raw pr = JObj o) ->
             (exists b, filter_func oldest_date latest_date pr = Ok b
                        /\ exists s, updated pr = Ok (JStr s))
             \/ (filter_func oldest_date latest_date pr = Raise TypeError
                 /\ forall s, updated pr <> Ok (JStr s))).
  { intros pr [o Ho]. unfold filter_func, updated, Py.get. rewrite Ho.
    destruct (default JNull (o !! "updated_at")) as [| | |u| |] eqn:Hu.
    all: try (right; split; [|intros s; discriminate];
              destruct oldest_date, latest_date, Hbound; try congruence;
              reflexivity).
    left. destruct oldest_date as [d|], latest_date as [l|]; simpl;
      repeat match goal with
             | |- context [str_lt ?a ?b] => destruct (str_lt a b); simpl
             | |- context [str_gt ?a ?b] => destruct (str_gt a b); simpl
             end; eauto. }
  induction Hdicts as [|pr l Hpr Hl IH]; [inversion Hundated|].
  simpl. destruct (Hstep pr Hpr) as [(b & -> & s & Hs)|[-> Hno]]; [|reflexivity].
  simpl. inversion Hundated as [? ? Hhere|? ? Hlater]; subst.
  - exfalso. exact (Hhere s Hs).
  - rewrite (IH Hlater). reflexivity.
Qed.

Definition undated : json := JObj (<["number" := JNum 3]> ∅).

Lemma date_filter_undated_record_witness :
  date_filter (map pull_request.mk [record 7 "2024-03-03T10:00:00Z"; undated])
              (Some march_first) None
  = Raise TypeError.
Proof.
  apply date_filter_undated_record.
  - left. discriminate.
  - repeat constructor; eexists; reflexivity.
  - apply Exists_cons_tl, Exists_cons_hd. intros s. vm_compute. discriminate.
Defined.

Definition has_state (state : string) (pr : PullRequest) : bool :=
  match raw pr with
  | JObj o =>
      match o !! "state" with
      | Some (JStr s) => String.eqb s state
      | _ => false
      end
  | _ => false
  end.

(** [filter_state] keeps, in their order, exactly the records whose
    [state] is the given string; a record with no state is dropped. *)
Theorem filter_state_selects (prs : list PullRequest) (state : string)
    (Hdicts : Forall (fun pr => exists o, raw pr = JObj o) prs) :
  filter_state prs state = Ok (List.filter (has_state state) prs).
Proof.
  unfold filter_state. induction Hdicts as [|pr l [o Ho] Hl IH]; [reflexivity|].
  cbn [py_filter List.filter]. unfold Py.get at 1. rewrite Ho.
  cbn [Py.bind]. rewrite IH. cbn [Py.bind].
  assert (Hs : has_state state pr
               = match default JNull (o !! "state") with
                 | JStr s' => String.eqb s' state
                 | _ => false
                 end).
  { unfold has_state. rewrite Ho.
    destruct (o !! "state") as [[| | |s| |]|]; reflexivity. }
  rewrite Hs. reflexivity.
Qed.

Lemma filter_state_selects_witness :
  filter_state (records_of page1) "open" = Ok (records_of page1)
  /\ filter_state (records_of page1) "closed" = Ok [].
Proof.
  split.
  - rewrite (filter_state_selects (records_of page1) "open").
    + vm_compute. reflexivity.
    + repeat constructor; eexists; reflexivity.
  - rewrite (filter_state_selects (records_of page1) "closed").
    + vm_compute. reflexivity.
    + repeat constructor; eexists; reflexivity.
Defined.

End FiltersMore.

(** ** The client: construction, arguments and diagnostics *)

Section ClientMore.

Import api.

Implicit Types (self : Api) (w : World) (h : Headers) (ps : Params).

(** A call of [get] that passes no [params] fails in [__mk_params]
    with [AttributeError] before anything is copied, printed or sent. *)
Theorem get_without_params self (path : string) (data version : option string)
    (dbg : option bool) w :
  get self path data version dbg None w = (Raises AttributeError, w).
Proof. reflexivity. Qed.

(** The constructor fails with [NoApiToken] exactly when the token is
    missing or empty, and it never touches the network. *)
Theorem init_requires_token (env : Requests) (url : string)
    (token user_agent : option string) (dbg : bool) w :
  (fst (init env url token user_agent dbg w) = Raises NoApiToken
   <-> token = None \/ token = Some "")
  /\ sent (snd (init env url token user_agent dbg w)) = sent w
  /\ incoming (snd (init env url token user_agent dbg w)) = incoming w.
Proof.
  destruct token as [t|]; [|split; [split; auto|split; reflexivity]].
  destruct (String.eqb_spec t "") as [->|Hne].
  - split; [split; auto|split; reflexivity].
  - rewrite (init_effect env url t user_agent dbg w Hne). simpl.
    split; [|split; reflexivity].
    split; [discriminate|]. intros [H|H]; [discriminate|]. congruence.
Qed.

Lemma append_empty_r (s : string) : s +:+ "" = s.
Proof.
  induction s as [|c s IH]; [reflexivity|].
  change (String c (s +:+ "") = String c s). f_equal. exact IH.
Qed.

Lemma append_assoc (a b d : string) : (a +:+ b) +:+ d = a +:+ (b +:+ d).
Proof.
  induction a as [|x a IH]; [reflexivity|].
  change (String x ((a +:+ b) +:+ d) = String x (a +:+ (b +:+ d))).
  f_equal. exact IH.
Qed.

Lemma concat_empty_cons (x : string) (l : list string) :
  String.concat "" (x :: l) = x +:+ String.concat "" l.
Proof.
  destruct l; cbn [String.concat]; [rewrite append_empty_r|]; reflexivity.
Qed.

Lemma query_string_from (c : ascii) (acc : string) ps :
  fold_left
    (fun args kv =>
       let sep := if String.eqb args "" then "&" else "?" in
       args +:+ sep +:+ fst kv +:+ "=" +:+ str_of_pval (snd kv))
    ps (String c acc)
  = String c acc
    +:+ String.concat ""
          (map (fun kv => "?" +:+ fst kv +:+ "=" +:+ str_of_pval (snd kv)) ps).
Proof.
  revert c acc. induction ps as [|[k v] ps IH]; intros c acc.
  - cbn [fold_left map String.concat]. rewrite append_empty_r. reflexivity.
  - cbn [fold_left map]. cbv zeta. cbn [String.eqb fst snd].
    change (String c acc +:+ "?" +:+ k +:+ "=" +:+ str_of_pval v)
      with (String c (acc +:+ "?" +:+ k +:+ "=" +:+ str_of_pval v)).
    rewrite IH, concat_empty_cons.
    change (String c (acc +:+ "?" +:+ k +:+ "=" +:+ str_of_pval v))
      with (String c acc +:+ ("?" +:+ k +:+ "=" +:+ str_of_pval v)).
    rewrite append_assoc. reflexivity.
Qed.

(** The argument string of the debug line puts [&] before the first
    pair and [?] before every later one. *)
Theorem query_string_separators (k : string) (v : pval) ps :
  query_string ((k, v) :: ps)
  = "&" +:+ k +:+ "=" +:+ str_of_pval v
    +:+ String.concat ""
          (map (fun kv => "?" +:+ fst kv +:+ "=" +:+ str_of_pval (snd kv)) ps).
Proof.
  unfold query_string. cbn [fold_left]. cbv zeta. cbn [String.eqb fst snd].
  change ("" +:+ "&" +:+ k +:+ "=" +:+ str_of_pval v)
    with (String "&"%char (k +:+ "=" +:+ str_of_pval v)).
  rewrite query_string_from.
  change (String "&"%char (k +:+ "=" +:+ str_of_pval v))
    with ("&" +:+ (k +:+ "=" +:+ str_of_pval v)).
  rewrite !append_assoc. reflexivity.
Qed.


Lemma success_raises_witness :
  exists r s,
    Genuine bad_gateway = Genuine r /\ body r = BodyRaw s
    /\ status_code r <> 200 /\ text r = true /\ true = true.
Proof.
  refine (proj2 (success_raises (Genuine bad_gateway) 200 true JSONDecodeError
                   (world_of []) (world_of []) _)).
  reflexivity.
Defined.

End ClientMore.

(** ** The fetch: failures and unbounded runs *)

Section FetchMore.

Import pull_request github.

Lemma fetch_fails_on_printable_failure_witness :
  fst (get_pull_requests hub "o" "r" None None 2 None false no_kwargs
                         (world_of [page1; not_found; page3]))
  = Raises GetPullRequestsError.
Proof.
  apply (fetch_fails_on_printable_failure hub client_headers
           (world_of [page1; not_found; page3]) "o" "r" None None 2 None false
           no_kwargs [page1] not_found [page3]).
  - reflexivity.
  - lia.
  - reflexivity.
  - vm_compute. reflexivity.
  - vm_compute. reflexivity.
Defined.

End FetchMore.

(** ** The guard: failures and transparency *)

Section GuardMore.

Import api.

Implicit Types (self : Api) (w : World) (h : Headers) (ps : Params).






(** A response the guard takes for a rate limit: status 403 or 429, a
    body that is a JSON object, and a [message] that starts with
    [api rate limit] whatever the case of its letters. *)
Definition rate_limited (r : Response) : bool :=
  looks_limited r
  && match json_of r with
     | Ok msg =>
         match is_rate_limit_message msg with
         | Ok limited => limited
         | Raise _ => false
         end
     | Raise _ => false
     end.


(** The time the guard sleeps on the headers [h] at the epoch [now],
    when they can be read and the time is not negative. *)
Definition nap (h : Headers) (now : Z) : option Z :=
  match match h_get h "Retry-After" with
        | Some v => int_of_str v
        | None => Ok 60
        end with
  | Raise _ => None
  | Ok ra =>
      match h_get h "X-RateLimit-Reset" with
      | Some x =>
          match int_of_str x with
          | Ok reset => if reset - now <? 0 then None else Some (reset - now)
          | Raise _ => None
          end
      | None => if ra <? 0 then None else Some ra
      end
  end.





Definition throttled : Response :=
  mkResponse 429 (h_update ∅ "Retry-After" "2")
             (BodyJson (JObj (<["message" := JStr "API rate limit exceeded for user"]> ∅))).


End GuardMore.

(** ** Timestamps in order *)

Section StringOrder.

Lemma ascii_compare_lt_trans (a b c : ascii) :
  Ascii.compare a b = Lt -> Ascii.compare b c = Lt -> Ascii.compare a c = Lt.
Proof.
  unfold Ascii.compare. rewrite !N.compare_lt_iff. lia.
Qed.

(** [a <= b < c] in the order of [str] gives [a < c]. *)
Lemma str_le_lt_trans (a b c : string) :
  String.leb a b = true -> String.ltb b c = true -> String.ltb a c = true.
Proof.
  unfold String.leb, String.ltb. revert b c.
  induction a as [|x a IH]; intros [|y b] [|z c]; simpl; try discriminate;
    try reflexivity.
  destruct (Ascii.compare x y) eqn:Hxy; try discriminate;
    destruct (Ascii.compare y z) eqn:Hyz; try discriminate.
  - apply Ascii.compare_eq_iff in Hxy, Hyz. subst y z.
    assert (Hxx : Ascii.compare x x = Eq) by (unfold Ascii.compare; apply N.compare_refl).
    rewrite Hxx. apply IH.
  - apply Ascii.compare_eq_iff in Hxy. subst y. rewrite Hyz. reflexivity.
  - apply Ascii.compare_eq_iff in Hyz. subst z. rewrite Hxy. reflexivity.
  - rewrite (ascii_compare_lt_trans _ _ _ Hxy Hyz). reflexivity.
Qed.

(** [a <= b <= c] gives [a <= c]. *)
Lemma str_le_trans (a b c : string) :
  String.leb a b = true -> String.leb b c = true -> String.leb a c = true.
Proof.
  unfold String.leb. revert b c.
  induction a as [|x a IH]; intros [|y b] [|z c]; simpl; try discriminate;
    try reflexivity.
  destruct (Ascii.compare x y) eqn:Hxy; try discriminate;
    destruct (Ascii.compare y z) eqn:Hyz; try discriminate.
  - apply Ascii.compare_eq_iff in Hxy, Hyz. subst y z.
    assert (Hxx : Ascii.compare x x = Eq) by (unfold Ascii.compare; apply N.compare_refl).
    rewrite Hxx. apply IH.
  - apply Ascii.compare_eq_iff in Hxy. subst y. rewrite Hyz. reflexivity.
  - apply Ascii.compare_eq_iff in Hyz. subst z. rewrite Hxy. reflexivity.
  - rewrite (ascii_compare_lt_trans _ _ _ Hxy Hyz). reflexivity.
Qed.

(** Timestamps from the newest to the oldest, equal ones allowed. *)
Fixpoint descending (l : list string) : bool :=
  match l with
  | a :: (b :: _) as rest => String.leb b a && descending rest
  | _ => true
  end.

Lemma descending_head (a : string) (l : list string) :
  descending (a :: l) = true -> Forall (fun b => String.leb b a = true) l.
Proof.
  revert a. induction l as [|b l IH]; intros a Hd; [constructor|].
  simpl in Hd. apply andb_prop in Hd as [Hba Hrest].
  constructor; [exact Hba|].
  eapply Forall_impl; [exact (IH b Hrest)|].
  intros c Hcb. simpl in Hcb. exact (str_le_trans _ _ _ Hcb Hba).
Qed.

Lemma descending_app_r (l1 l2 : list string) :
  descending (l1 ++ l2) = true -> descending l2 = true.
Proof.
  induction l1 as [|a l1 IH]; intros Hd; [exact Hd|].
  apply IH. destruct (l1 ++ l2)%list as [|b t] eqn:E; [reflexivity|].
  cbn [app] in Hd. rewrite E in Hd. simpl in Hd.
  apply andb_prop in Hd as [_ Hd]. exact Hd.
Qed.

End StringOrder.

(** ** The fetch: what a run returns *)

Section FetchResults.

Import pull_request github.

Implicit Types (self : GitHub) (w : World) (h : Headers) (ps : Params).

(** A page with at least, respectively fewer than, [per_page] records. *)
Definition full (per_page : Z) (r : Response) : bool :=
  match page_items r with
  | Some items => per_page <=? Z.of_nat (length items)
  | None => false
  end.

Definition short (per_page : Z) (r : Response) : bool :=
  match page_items r with
  | Some items => Z.of_nat (length items) <? per_page
  | None => false
  end.

Lemma readable_unbounded (items : list json) :
  forallb (readable None None) items = true.
Proof. induction items as [|v items IH]; [reflexivity|exact IH]. Qed.

(** With no date bound the fetch reads the pages up to the first one
    with fewer than [per_page] records and returns every record of
    them, in the order received, whatever the records hold. *)
Theorem unbounded_fetch_returns_every_record self h w
    (owner repo : string) (per_page : Z) (params : option Params)
    (debug : bool) (kw : kwargs)
    (before : list Response) (p : Response) (after : list Response)
    (Hlive : live self h w)
    (Hpp : 1 <= per_page)
    (Hin : incoming w = (before ++ p :: after)%list)
    (Hfull : forallb (full per_page) before = true)
    (Hshort : short per_page p = true) :
  let run := get_pull_requests self owner repo None None per_page params debug
                               kw w in
  fst run = Returns (concat (map records_of (before ++ [p])%list))
  /\ incoming (snd run) = after.
Proof.
  intros run. subst run. unfold get_pull_requests.
  set (ps := dict_set _ "direction" _).
  assert (Hpage : dict_get ps "page" = Some (PInt 0)).
  { unfold ps. rewrite !dict_get_set_ne by discriminate. apply dict_get_set_eq. }
  assert (Hgo : forallb (goes_on per_page None None) before = true).
  { clear -Hfull. induction before as [|r before IH]; [reflexivity|].
    simpl in *. apply andb_prop in Hfull as [Hr Hrest].
    rewrite (IH Hrest), andb_true_r. unfold goes_on, full in *.
    destruct (page_items r) as [items|]; [|discriminate].
    rewrite readable_unbounded. unfold ends_here.
    apply Z.leb_le in Hr. destruct (Z.of_nat (length items) <? per_page) eqn:E;
      [apply Z.ltb_lt in E; lia|reflexivity]. }
  assert (Hlast : is_last per_page None None p = true).
  { unfold is_last, short in *. destruct (page_items p) as [items|]; [|discriminate].
    rewrite readable_unbounded. unfold ends_here. rewrite Hshort. reflexivity. }
  destruct (pages_run self h
              ("repos" +:+ "/" +:+ owner +:+ "/" +:+ repo +:+ "/" +:+ "pulls")
              None None per_page debug kw p after Hpp Hlast
              before w ps 0 [] (S (length (incoming w))) Hlive Hin Hgo Hpage)
    as (kept & qs & Hkept & Hres & _ & _ & Hrest).
  { rewrite Hin, length_app. simpl. lia. }
  unfold date_filter in Hkept.
  rewrite py_filter_true in Hkept by reflexivity. injection Hkept as <-.
  split; [exact Hres|exact Hrest].
Qed.

Definition undated_page : Response := page [undated].

Lemma unbounded_fetch_returns_every_record_witness :
  let run := get_pull_requests hub "o" "r" None None 2 None false no_kwargs
                               (world_of [page1; undated_page; page3]) in
  fst run = Returns (records_of page1 ++ records_of undated_page)%list
  /\ incoming (snd run) = [page3].
Proof.
  apply (unbounded_fetch_returns_every_record hub client_headers
           (world_of [page1; undated_page; page3]) "o" "r" 2 None false no_kwargs
           [page1] undated_page [page3]).
  - reflexivity.
  - lia.
  - reflexivity.
  - vm_compute. reflexivity.
  - vm_compute. reflexivity.
Defined.

(** The [updated_at] of a raw record that has one. *)
Definition stamp (v : json) : string :=
  match v with
  | JObj o =>
      match o !! "updated_at" with
      | Some (JStr u) => u
      | _ => ""
      end
  | _ => ""
  end.

(** A page whose records all carry a string [updated_at]. *)
Definition dated_page (r : Response) : bool :=
  match page_items r with
  | Some items => forallb dated items
  | None => false
  end.

Definition items_of (r : Response) : list json := default [] (page_items r).

Lemma dated_stamp (v : json) :
  dated v = true -> updated (pull_request.mk v) = Ok (JStr (stamp v)).
Proof.
  unfold dated, stamp, updated, Py.get. simpl.
  destruct v as [| | | | |o]; try discriminate.
  destruct (o !! "updated_at") as [[| | |u| |]|]; try discriminate.
  reflexivity.
Qed.

(** Records older than the lower bound are all dropped. *)
Lemma date_filter_too_old (o : datetime.t) (latest_date : option datetime.t)
    (items : list json) :
  forallb dated items = true ->
  Forall (fun v => str_lt (stamp v) (datetime.isoformat o) = true) items ->
  date_filter (map pull_request.mk items) (Some o) latest_date = Ok [].
Proof.
  unfold date_filter. induction items as [|v items IH]; intros Hd Hold;
    [reflexivity|].
  simpl in Hd. apply andb_prop in Hd as [Hv Hrest].
  inversion Hold as [|? ? Hlt Hold']; subst.
  cbn [map py_filter]. rewrite (filter_func_dated _ _ _ Hv).
  cbn [Py.bind]. rewrite (IH Hrest Hold'). cbn [Py.bind].
  unfold within. rewrite (dated_stamp _ Hv). unfold in_range. rewrite Hlt.
  reflexivity.
Qed.

Lemma records_of_items (r : Response) :
  records_of r = map pull_request.mk (items_of r).
Proof. unfold records_of, items_of. destruct (page_items r); reflexivity. Qed.

Lemma dated_pages_items (rs : list Response) :
  forallb dated_page rs = true ->
  forallb dated (concat (map items_of rs)) = true.
Proof.
  induction rs as [|r rs IH]; [reflexivity|].
  simpl. intros [Hr Hrest]%andb_prop. rewrite forallb_app, (IH Hrest), andb_true_r.
  unfold dated_page, items_of in *. destruct (page_items r); [exact Hr|reflexivity].
Qed.

(** Stopping early loses nothing when the server keeps its order: if
    the records of the stopping page and of the pages behind it come
    newest first, and the last record of the stopping page is older
    than [oldest_date], then the fetch returns what the date filter
    keeps of all the pages, the unread ones included. *)
Theorem early_stop_loses_nothing self h w
    (owner repo : string) (o : datetime.t) (latest_date : option datetime.t)
    (per_page : Z) (params : option Params) (debug : bool) (kw : kwargs)
    (before : list Response) (p : Response) (after : list Response)
    (Hlive : live self h w)
    (Hpp : 1 <= per_page)
    (Hin : incoming w = (before ++ p :: after)%list)
    (Hgo : forallb (goes_on per_page (Some o) latest_date) before = true)
    (Hp : dated_page p = true)
    (Hcross : match last (items_of p) with
              | Some v => str_lt (stamp v) (datetime.isoformat o)
              | None => false
              end = true)
    (Hafter : forallb dated_page after = true)
    (Horder : descending (map stamp (items_of p ++ concat (map items_of after))%list)
              = true) :
  exists kept,
    fst (get_pull_requests self owner repo (Some o) latest_date per_page params
                           debug kw w) = Returns kept
    /\ date_filter (concat (map records_of (before ++ p :: after)%list))
                   (Some o) latest_date = Ok kept.
Proof.
  unfold dated_page in Hp.
  destruct (page_items p) as [items|] eqn:Hitems; [|discriminate].
  assert (Hio : items_of p = items) by (unfold items_of; rewrite Hitems; reflexivity).
  rewrite Hio in Hcross, Horder.
  destruct (last items) as [v|] eqn:Hv; [|discriminate].
  assert (Hvd : dated v = true) by exact (forallb_last _ _ _ Hp Hv).
  assert (Hread : forallb (readable (Some o) latest_date) items = true).
  { clear -Hp. induction items as [|x items IH]; [reflexivity|].
    simpl in *. apply andb_prop in Hp as [Hx Hrest].
    rewrite (IH Hrest), andb_true_r. unfold readable. rewrite Hx.
    apply orb_true_r. }
  assert (Hlast : is_last per_page (Some o) latest_date p = true).
  { unfold is_last. rewrite Hitems, Hread. simpl. unfold ends_here.
    rewrite Hv. unfold dated in Hvd. unfold stamp in Hcross.
    destruct v as [| | | | |m]; try discriminate.
    destruct (m !! "updated_at") as [[| | |u| |]|]; try discriminate.
    rewrite Hcross. apply orb_true_r. }
  unfold get_pull_requests.
  set (ps := dict_set _ "direction" _).
  assert (Hpage : dict_get ps "page" = Some (PInt 0)).
  { unfold ps. rewrite !dict_get_set_ne by discriminate. apply dict_get_set_eq. }
  destruct (pages_run self h
              ("repos" +:+ "/" +:+ owner +:+ "/" +:+ repo +:+ "/" +:+ "pulls")
              (Some o) latest_date per_page debug kw p after Hpp Hlast
              before w ps 0 [] (S (length (incoming w))) Hlive Hin Hgo Hpage)
    as (kept & qs & Hkept & Hres & _).
  { rewrite Hin, length_app. simpl. lia. }
  exists kept. split; [exact Hres|].
  assert (Hold : Forall (fun x => str_lt (stamp x) (datetime.isoformat o) = true)
                        (concat (map items_of after))).
  { apply last_Some in Hv as [items' ->].
    rewrite <- app_assoc, map_app in Horder. apply descending_app_r in Horder.
    cbn [app map] in Horder. apply descending_head in Horder.
    apply Forall_map in Horder.
    eapply Forall_impl; [exact Horder|]. intros x Hx. simpl in Hx.
    exact (str_le_lt_trans _ _ _ Hx Hcross). }
  replace (before ++ p :: after)%list with ((before ++ [p]) ++ after)%list
    by (rewrite <- app_assoc; reflexivity).
  rewrite map_app, concat_app. unfold date_filter in *. rewrite py_filter_app.
  rewrite Hkept. cbn [Py.bind].
  assert (Hnone : py_filter (filter_func (Some o) latest_date)
                            (concat (map records_of after)) = Ok []).
  { replace (concat (map records_of after))
      with (map pull_request.mk (concat (map items_of after))).
    - apply (date_filter_too_old o latest_date);
        [apply dated_pages_items; exact Hafter|exact Hold].
    - clear. induction after as [|r after IH]; [reflexivity|].
      simpl. rewrite map_app, IH, records_of_items. reflexivity. }
  rewrite Hnone. cbn [Py.bind]. rewrite app_nil_r. reflexivity.
Qed.

Lemma early_stop_loses_nothing_witness :
  exists kept,
    fst (get_pull_requests hub "o" "r" (Some march_first) None 2 None false
                           no_kwargs (world_of [page1; page2; page3]))
    = Returns kept
    /\ date_filter (concat (map records_of [page1; page2; page3]))
                   (Some march_first) None = Ok kept.
Proof.
  apply (early_stop_loses_nothing hub client_headers
           (world_of [page1; page2; page3]) "o" "r" march_first None 2 None false
           no_kwargs [page1] page2 [page3]).
  - reflexivity.
  - lia.
  - reflexivity.
  - vm_compute. reflexivity.
  - vm_compute. reflexivity.
  - vm_compute. reflexivity.
  - vm_compute. reflexivity.
  - vm_compute. reflexivity.
Defined.

End FetchResults.

(** ** The fetch: what goes on the wire, whatever comes back *)

Section FetchRequests.

Import pull_request github.

Implicit Types (self : GitHub) (w : World) (h : Headers) (ps : Params).

(** A guarded call on a live client sends its request at least once,
    and nothing else. *)
Lemma guard_sends_same (a : api.Api) h (path : string)
    (data version : option string) (dbg : option bool) ps (fuel : nat) :
  forall w,
    store w !! api.api_headers a = Some h ->
    exists n,
      sent (snd (api.rate_limit (S fuel)
                   (api.send a path data version dbg (Some ps)) w))
      = (sent w ++ repeat (request_of a path data version ps h) (S n))%list
      /\ store (snd (api.rate_limit (S fuel)
                       (api.send a path data version dbg (Some ps)) w))
         !! api.api_headers a = Some h.
Proof.
  induction fuel as [|fuel IH]; intros w Hh;
    rewrite (rate_limit_turn _ _ _ _ _ _ h) by exact Hh; cbv zeta;
    set (w1 := after_send a path data version dbg ps h w);
    assert (Hs1 : sent w1 = (sent w ++ [request_of a path data version ps h])%list)
      by reflexivity;
    assert (Hl1 : store w1 !! api.api_headers a = Some h)
      by (unfold w1, after_send; simpl; apply lookup_app_l_Some; exact Hh).
  all: destruct (incoming w) as [|r rs]; [exists 0%nat; split; assumption|].
  all: destruct (looks_limited r); [|exists 0%nat; split; assumption].
  all: destruct (json_of r) as [msg|e]; [|exists 0%nat; split; assumption].
  all: destruct (api.is_rate_limit_message msg) as [[]|e];
    [|exists 0%nat; split; assumption|exists 0%nat; split; assumption].
  all: destruct (api.rate_limit_sleep (headers r) w1) as [[[]|e|hh] w2] eqn:Hsleep;
    apply rate_limit_sleep_frame in Hsleep as (_ & Hs2 & Hst2 & _).
  all: try (exists 0%nat; simpl; rewrite Hs2, Hst2; split; assumption).
  destruct (IH w2) as (n & Hn & Hl); [rewrite Hst2; exact Hl1|].
  exists (S n). rewrite Hn, Hs2, Hs1, <- app_assoc. split; [reflexivity|exact Hl].
Qed.

(** Page numbers that start one above [prev] and then stay or go up
    by one; [first] says that the next number cannot be [prev] itself. *)
Fixpoint consecutive_from (prev : Z) (first : bool) (ns : list Z) : bool :=
  match ns with
  | [] => true
  | n :: rest =>
      ((n =? prev + 1) || (negb first && (n =? prev)))
      && consecutive_from n false rest
  end.

Lemma consecutive_weaken (prev : Z) (ns : list Z) :
  consecutive_from prev true ns = true -> consecutive_from prev false ns = true.
Proof.
  destruct ns as [|n rest]; [reflexivity|]. simpl.
  intros [H1 H2]%andb_prop. rewrite H2, andb_true_r.
  rewrite orb_false_r in H1. rewrite H1. reflexivity.
Qed.

Lemma consecutive_repeat (m : Z) (k : nat) (ns : list Z) :
  consecutive_from m true ns = true ->
  consecutive_from m false (repeat m k ++ ns)%list = true.
Proof.
  intros H. induction k as [|k IH]; [exact (consecutive_weaken _ _ H)|].
  cbn [repeat app consecutive_from]. rewrite IH, Z.eqb_refl.
  rewrite orb_true_r. reflexivity.
Qed.

Lemma dict_set_set ps (k : string) (a b : pval) :
  dict_set (dict_set ps k a) k b = dict_set ps k b.
Proof.
  induction ps as [|[k' v'] ps IH]; simpl.
  - rewrite String.eqb_refl. reflexivity.
  - destruct (String.eqb k' k) eqn:E; simpl; rewrite E; [reflexivity|].
    rewrite IH. reflexivity.
Qed.

Lemma triple_bind_ok {A B} (P : World -> Prop) (a : A) (k : A -> IO.t B)
    (Q : outcome B -> World -> Prop) :
  triple P (k a) Q -> triple P (IO.bind (IO.lift (Ok a)) k) Q.
Proof. intros H w HP. exact (H w HP). Qed.

Lemma success_quiet (a : api.response_arg) (expected : Z) (output : bool) w :
  sent (snd (api.success a expected output w)) = sent w
  /\ store (snd (api.success a expected output w)) = store w.
Proof.
  unfold api.success. destruct a as [|v|r]; io_simpl; try (split; reflexivity).
  destruct (status_code r =? expected); simpl; [split; reflexivity|].
  destruct (text r && output); simpl; [|split; reflexivity].
  unfold json_of. destruct (body r); simpl; split; reflexivity.
Qed.

Section Loop.

Variables (self : GitHub) (h : Headers) (path : string)
          (oldest_date latest_date : option datetime.t) (per_page : Z)
          (debug : bool) (kw : kwargs).

(** The request for page [m], the other parameters being those of [ps]. *)
Definition page_request ps (m : Z) : Request :=
  request_of (api self) path (kw_data kw) (kw_version kw)
             (dict_set ps "page" (PInt m)) h.

Definition sent_pages (s : list Request) ps (n : Z)
    (o : outcome (list PullRequest)) w : Prop :=
  exists ns,
    sent w = (s ++ map (page_request ps) ns)%list
    /\ consecutive_from n true ns = true.

Lemma sent_pages_none (s : list Request) ps (n : Z)
    (o : outcome (list PullRequest)) w :
  sent w = s -> sent_pages s ps n o w.
Proof. intros Hs. exists []. rewrite app_nil_r. split; [exact Hs|reflexivity]. Qed.

(** Whatever the transport answers, the loop started at page [n] asks
    for page [n + 1] first, then for the same page again or the next. *)
Lemma pages_requests (fuel : nat) :
  forall (s : list Request) ps (n : Z) (pull_reqs : list PullRequest),
    dict_get ps "page" = Some (PInt n) ->
    triple (fun w => live self h w /\ sent w = s)
           (pages fuel self path oldest_date latest_date per_page debug kw ps
                  pull_reqs)
           (sent_pages s ps n).
Proof.
  induction fuel as [|fuel IH]; intros s ps n pull_reqs Hpage; cbn [pages].
  { intros w [_ Hs]. apply sent_pages_none. exact Hs. }
  unfold next_page. rewrite Hpage. apply triple_bind_ok.
  set (ps' := dict_set ps "page" (PInt (n + 1))).
  apply triple_bind with (R := fun _ w => live self h w /\ sent w = s).
  { destruct debug; [|apply triple_ret; auto].
    intros w [Hl Hs]. split; [exact Hl|exact Hs]. }
  intros _.
  apply triple_bind
    with (R := fun _ w =>
                 live self h w
                 /\ exists k, sent w
                              = (s ++ repeat (page_request ps (n + 1)) (S k))%list).
  { intros w [Hl Hs]. unfold api.get.
    destruct (guard_sends_same (api self) h path (kw_data kw) (kw_version kw)
                (Some debug) ps' (length (incoming w)) w Hl) as (k & Hk & Hl').
    rewrite Hs in Hk.
    assert (Hq : sent_pages s ps n (Raises AttributeError)
                   (snd (api.rate_limit (S (length (incoming w)))
                           (api.send (api self) path (kw_data kw) (kw_version kw)
                                     (Some debug) (Some ps')) w))).
    { exists (repeat (n + 1) (S k)). split.
      - rewrite Hk. f_equal. clear. induction (S k) as [|j IHj]; [reflexivity|].
        simpl. rewrite <- IHj. reflexivity.
      - cbn [repeat consecutive_from]. rewrite Z.eqb_refl. simpl.
        rewrite <- (app_nil_r (repeat (n + 1) k)).
        apply consecutive_repeat. reflexivity. }
    destruct (fst (api.rate_limit (S (length (incoming w)))
                     (api.send (api self) path (kw_data kw) (kw_version kw)
                               (Some debug) (Some ps')) w)) as [r|e|hh].
    - split; [exact Hl'|]. exists k. exact Hk.
    - exact Hq.
    - exact Hq. }
  intros response w (Hl & k & Hk).
  set (s' := (s ++ repeat (page_request ps (n + 1)) (S k))%list) in *.
  assert (Hcont :
            triple (fun w => live self h w /\ sent w = s')
                   (ok <~ api.success (api.Genuine response) 200 true ;;
                    if negb ok then IO.raise GetPullRequestsError
                    else
                      items <~ IO.lift (v <- json_of response ;; iterate v) ;;
                      let partial_pull_reqs := map pull_request.mk items in
                      let count := Z.of_nat (length partial_pull_reqs) in
                      pull_reqs <~ (if 0 <? count
                                    then
                                      kept <~ IO.lift (date_filter partial_pull_reqs
                                                         oldest_date latest_date) ;;
                                      IO.ret (pull_reqs ++ kept)%list
                                    else IO.ret pull_reqs) ;;
                      stop <~ IO.lift (last_page partial_pull_reqs per_page
                                                 oldest_date) ;;
                      if stop : bool then IO.ret pull_reqs
                      else pages fuel self path oldest_date latest_date per_page
                                 debug kw ps' pull_reqs)
                   (sent_pages s' ps' (n + 1))).
  { apply triple_bind with (R := fun _ w => live self h w /\ sent w = s').
    { intros w0 [Hl0 Hs0].
      destruct (success_quiet (api.Genuine response) 200 true w0) as [Hq1 Hq2].
      destruct (fst (api.success (api.Genuine response) 200 true w0)) as [b|e|hh].
      - split; [unfold live; rewrite Hq2; exact Hl0|rewrite Hq1; exact Hs0].
      - apply sent_pages_none. rewrite Hq1. exact Hs0.
      - apply sent_pages_none. rewrite Hq1. exact Hs0. }
    intros ok. destruct ok; simpl;
      [|apply triple_raise; intros w0 [_ Hs0]; apply sent_pages_none; exact Hs0].
    apply triple_bind with (R := fun _ w => live self h w /\ sent w = s').
    { apply triple_lift. intros w0 [Hl0 Hs0].
      destruct (v <- json_of response;; iterate v);
        [split; assumption|apply sent_pages_none; exact Hs0]. }
    intros items.
    apply triple_bind with (R := fun _ w => live self h w /\ sent w = s').
    { destruct (0 <? Z.of_nat (length (map pull_request.mk items)));
        [|apply triple_ret; auto].
      apply triple_bind with (R := fun _ w => live self h w /\ sent w = s');
        [|intros kept; apply triple_ret; auto].
      apply triple_lift. intros w0 [Hl0 Hs0].
      destruct (date_filter (map pull_request.mk items) oldest_date latest_date);
        [split; assumption|apply sent_pages_none; exact Hs0]. }
    intros pull_reqs'.
    apply triple_bind with (R := fun _ w => live self h w /\ sent w = s').
    { apply triple_lift. intros w0 [Hl0 Hs0].
      destruct (last_page (map pull_request.mk items) per_page oldest_date);
        [split; assumption|apply sent_pages_none; exact Hs0]. }
    intros stop. destruct stop;
      [apply triple_ret; intros w0 [_ Hs0]; apply sent_pages_none; exact Hs0|].
    apply IH. apply dict_get_set_eq. }
  destruct (Hcont w (conj Hl Hk)) as (ns & Hns & Hcons).
  exists (repeat (n + 1) (S k) ++ ns)%list. split.
  - refine (eq_trans Hns _). unfold s'. rewrite <- app_assoc, map_app.
    do 2 f_equal.
    + clear. induction (S k) as [|j IHj]; [reflexivity|].
      simpl. rewrite <- IHj. reflexivity.
    + apply map_ext. intros m. unfold page_request, ps'.
      rewrite dict_set_set. reflexivity.
  - cbn [repeat app consecutive_from]. rewrite Z.eqb_refl. simpl.
    apply consecutive_repeat. exact Hcons.
Qed.

End Loop.

(** The parameters [get_pull_requests] starts its loop with. *)
Definition first_params (params : option Params) (per_page : Z) : Params :=
  dict_set
    (dict_set
       (dict_set
          (dict_set (dict_set (default [] params) "page" (PInt 0))
                    "per_page" (PInt per_page))
          "state" (PStr "all"))
       "sort" (PStr "updated"))
    "direction" (PStr "desc").

Lemma fetch_requests self h w (owner repo : string)
    (oldest_date latest_date : option datetime.t) (per_page : Z)
    (params : option Params) (debug : bool) (kw : kwargs) :
  live self h w ->
  exists ns,
    sent (snd (get_pull_requests self owner repo oldest_date latest_date per_page
                                 params debug kw w))
    = (sent w
       ++ map (page_request self h
                 ("repos" +:+ "/" +:+ owner +:+ "/" +:+ repo +:+ "/" +:+ "pulls")
                 kw (first_params params per_page)) ns)%list
    /\ consecutive_from 0 true ns = true.
Proof.
  intros Hlive. unfold get_pull_requests.
  apply (pages_requests self h _ oldest_date latest_date per_page debug kw _
           (sent w) (first_params params per_page) 0 []).
  - unfold first_params. rewrite !dict_get_set_ne by discriminate.
    apply dict_get_set_eq.
  - split; [exact Hlive|reflexivity].
Qed.

(** Whatever the transport answers, be it pages, rate limits or
    failures, the fetch asks for page 1 first and then, request after
    request, for the same page again or for the next one. *)
Theorem requested_pages_are_consecutive self h w (owner repo : string)
    (oldest_date latest_date : option datetime.t) (per_page : Z)
    (params : option Params) (debug : bool) (kw : kwargs)
    (Hlive : live self h w) :
  exists qs ns,
    sent (snd (get_pull_requests self owner repo oldest_date latest_date per_page
                                 params debug kw w))
    = (sent w ++ qs)%list
    /\ map page_number qs = map (fun n => Some (PInt n)) ns
    /\ consecutive_from 0 true ns = true.
Proof.
  destruct (fetch_requests self h w owner repo oldest_date latest_date per_page
              params debug kw Hlive) as (ns & Hns & Hcons).
  eexists _, ns. split; [exact Hns|]. split; [|exact Hcons].
  rewrite map_map. apply map_ext. intros n.
  unfold page_number, page_request, request_of. simpl.
  apply dict_get_set_eq.
Qed.

Lemma requested_pages_are_consecutive_witness :
  exists qs ns,
    sent (snd (get_pull_requests hub "o" "r" (Some march_first) None 2 None false
                                 no_kwargs
                                 (world_of [page1; throttled; page2; page3])))
    = qs
    /\ map page_number qs = map (fun n => Some (PInt n)) ns
    /\ consecutive_from 0 true ns = true.
Proof.
  apply (requested_pages_are_consecutive hub client_headers
           (world_of [page1; throttled; page2; page3]) "o" "r"
           (Some march_first) None 2 None false no_kwargs).
  reflexivity.
Defined.




End FetchRequests.

(** ** Answers that cannot be read *)

Section Unreadable.

Import pull_request github.

Implicit Types (self : GitHub) (w : World) (h : Headers) (ps : Params).

(** A 403 or 429 whose body is not JSON, or is JSON but no object with
    a string [message], makes the guard fail after one request and no
    sleep: with [JSONDecodeError] in the first case, with
    [AttributeError] in the second. *)
Theorem guard_fails_on_unreadable_limit (a : api.Api) h w (path : string)
    (data version : option string) (dbg : option bool) ps
    (r : Response) (rs : list Response)
    (Hh : store w !! api.api_headers a = Some h)
    (Hin : incoming w = r :: rs)
    (Hlooks : looks_limited r = true) :
  (json_of r = Raise JSONDecodeError ->
   api.get a path data version dbg (Some ps) w
   = (Raises JSONDecodeError, after_send a path data version dbg ps h w))
  /\ (forall msg,
         json_of r = Ok msg ->
         api.is_rate_limit_message msg = Raise AttributeError ->
         api.get a path data version dbg (Some ps) w
         = (Raises AttributeError, after_send a path data version dbg ps h w)).
Proof.
  unfold api.get. rewrite (rate_limit_turn _ _ _ _ _ _ h) by exact Hh.
  cbv zeta. rewrite Hin, Hlooks. split.
  - intros ->. reflexivity.
  - intros msg -> ->. reflexivity.
Qed.

Definition forbidden_html : Response :=
  mkResponse 403 ∅ (BodyRaw "<html>Forbidden</html>").

Definition forbidden_list : Response :=
  mkResponse 403 ∅ (BodyJson (JList [JStr "API rate limit exceeded"])).

Lemma guard_fails_on_unreadable_limit_witness :
  fst (api.get client "repos/o/r/pulls" None None None (Some [])
               (world_of [forbidden_html; page1]))
  = Raises JSONDecodeError
  /\ fst (api.get client "repos/o/r/pulls" None None None (Some [])
                  (world_of [forbidden_list; page1]))
     = Raises AttributeError.
Proof.
  split.
  - destruct (guard_fails_on_unreadable_limit client client_headers
                (world_of [forbidden_html; page1]) "repos/o/r/pulls" None None
                None [] forbidden_html [page1] eq_refl eq_refl eq_refl)
      as [H _].
    rewrite H; reflexivity.
  - destruct (guard_fails_on_unreadable_limit client client_headers
                (world_of [forbidden_list; page1]) "repos/o/r/pulls" None None
                None [] forbidden_list [page1] eq_refl eq_refl eq_refl)
      as [_ H].
    rewrite (H (JList [JStr "API rate limit exceeded"])); reflexivity.
Defined.



(** What a 200 answer that is no page makes the fetch raise: the body
    is not JSON, or it is JSON that cannot be iterated over. *)
Definition unreadable_as (r : Response) : option exn :=
  if status_code r =? 200
  then match body r with
       | BodyRaw _ => Some JSONDecodeError
       | BodyJson (JNull | JBool _ | JNum _) => Some TypeError
       | BodyJson _ => None
       end
  else None.

Lemma pages_step_unreadable self h (path : string)
    (oldest_date latest_date : option datetime.t) (per_page : Z)
    (debug : bool) (kw : kwargs) (fuel : nat) ps (n : Z)
    (pull_reqs : list PullRequest) w (r : Response) (rs : list Response)
    (e : exn) :
  live self h w ->
  incoming w = r :: rs ->
  unreadable_as r = Some e ->
  dict_get ps "page" = Some (PInt n) ->
  fst (pages (S fuel) self path oldest_date latest_date per_page debug kw ps
             pull_reqs w)
  = Raises e.
Proof.
  intros Hlive Hin Hun Hpage. unfold unreadable_as in Hun.
  destruct (status_code r =? 200) eqn:Hstatus; [|discriminate].
  assert (Hlim : looks_limited r = false).
  { unfold looks_limited. apply Z.eqb_eq in Hstatus. rewrite Hstatus. reflexivity. }
  cbn [pages]. unfold next_page. rewrite Hpage.
  set (ps' := dict_set ps "page" (PInt (n + 1))).
  assert (Hlive' : live self h (announced debug ps' w))
    by (unfold announced; destruct debug; exact Hlive).
  assert (Hin' : incoming (announced debug ps' w) = r :: rs)
    by (unfold announced; destruct debug; exact Hin).
  assert (Hprint : (if debug
                    then IO.print (PrPage (dict_get ps' "page") (dict_get ps' "per_page"))
                    else IO.ret tt) w
                   = (Returns tt, announced debug ps' w))
    by (unfold announced; destruct debug; reflexivity).
  unfold IO.bind at 1. cbn [IO.lift]. unfold IO.ret at 1.
  unfold IO.bind at 1. rewrite Hprint.
  unfold IO.bind at 1.
  rewrite (get_unlimited _ _ _ _ _ _ h _ r rs Hlive' Hin' Hlim).
  unfold IO.bind at 1. unfold api.success. io_simpl. rewrite Hstatus. simpl.
  unfold json_of. destruct (body r) as [[| | | | |]|s]; simpl;
    try discriminate; injection Hun as <-; reflexivity.
Qed.

(** The loop gets past the pages that go on and meets the response
    behind them. *)
Lemma pages_after self h (path : string)
    (oldest_date latest_date : option datetime.t) (per_page : Z)
    (debug : bool) (kw : kwargs) (f : Response) (after : list Response)
    (X : outcome (list PullRequest))
    (Hpp : 1 <= per_page)
    (Hmeet : forall fuel ps n pull_reqs w,
        live self h w ->
        incoming w = f :: after ->
        dict_get ps "page" = Some (PInt n) ->
        fst (pages (S fuel) self path oldest_date latest_date per_page debug kw
                   ps pull_reqs w) = X) :
  forall (before : list Response) w ps (n : Z) (pull_reqs : list PullRequest)
         (fuel : nat),
    live self h w ->
    incoming w = (before ++ f :: after)%list ->
    forallb (goes_on per_page oldest_date latest_date) before = true ->
    dict_get ps "page" = Some (PInt n) ->
    (length before < fuel)%nat ->
    fst (pages fuel self path oldest_date latest_date per_page debug kw
               ps pull_reqs w) = X.
Proof.
  induction before as [|r before IH];
    intros w ps n pull_reqs fuel Hlive Hin Hgo Hpage Hfuel;
    (destruct fuel as [|fuel]; [simpl in Hfuel; lia|]).
  - exact (Hmeet fuel ps n pull_reqs w Hlive Hin Hpage).
  - simpl in Hgo. apply andb_prop in Hgo as [Hr Hgo].
    destruct (goes_on_inv _ _ _ _ Hr) as (items & Hitems & Hread & Hend).
    destruct (date_filter_readable _ _ _ Hread) as [kept Hkept].
    rewrite (pages_step self h path oldest_date latest_date per_page debug kw
               fuel ps n pull_reqs kept w r (before ++ f :: after)%list items
               Hlive Hin Hitems Hpp Hread Hpage Hkept).
    rewrite Hend.
    apply (IH _ _ (n + 1)).
    + unfold live, after_send. simpl. apply lookup_app_l_Some.
      unfold announced. destruct debug; exact Hlive.
    + unfold after_send, announced. destruct debug; simpl; rewrite Hin; reflexivity.
    + exact Hgo.
    + apply dict_get_set_eq.
    + simpl in Hfuel. lia.
Qed.

(** A 200 answer that is no page ends the fetch with an error of the
    decoding, not with [GetPullRequestsError] and not with the records
    read so far: [JSONDecodeError] for a body that is not JSON, an empty
    one included, [TypeError] for a JSON null, boolean or number. *)
Theorem fetch_fails_on_unreadable_page self h w
    (owner repo : string) (oldest_date latest_date : option datetime.t)
    (per_page : Z) (params : option Params) (debug : bool) (kw : kwargs)
    (before : list Response) (f : Response) (after : list Response) (e : exn)
    (Hlive : live self h w)
    (Hpp : 1 <= per_page)
    (Hin : incoming w = (before ++ f :: after)%list)
    (Hgo : forallb (goes_on per_page oldest_date latest_date) before = true)
    (Hun : unreadable_as f = Some e) :
  fst (get_pull_requests self owner repo oldest_date latest_date per_page
                         params debug kw w)
  = Raises e.
Proof.
  unfold get_pull_requests.
  set (ps := dict_set _ "direction" _).
  apply (pages_after self h _ oldest_date latest_date per_page debug kw f after
           (Raises e) Hpp) with (before := before) (n := 0).
  - intros fuel ps0 n pull_reqs w0 Hl0 Hin0 Hp0.
    exact (pages_step_unreadable self h _ oldest_date latest_date per_page debug
             kw fuel ps0 n pull_reqs w0 f after e Hl0 Hin0 Hun Hp0).
  - exact Hlive.
  - exact Hin.
  - exact Hgo.
  - unfold ps. rewrite !dict_get_set_ne by discriminate. apply dict_get_set_eq.
  - rewrite Hin, length_app. simpl. lia.
Qed.

Definition no_content : Response := mkResponse 200 ∅ (BodyRaw "").

Lemma fetch_fails_on_unreadable_page_witness :
  fst (get_pull_requests hub "o" "r" None None 2 None false no_kwargs
                         (world_of [page1; no_content; page3]))
  = Raises JSONDecodeError.
Proof.
  apply (fetch_fails_on_unreadable_page hub client_headers
           (world_of [page1; no_content; page3]) "o" "r" None None 2 None false
           no_kwargs [page1] no_content [page3]).
  - reflexivity.
  - lia.
  - reflexivity.
  - vm_compute. reflexivity.
  - reflexivity.
Defined.

End Unreadable.

(** ** What every request of a client carries *)

Section Credentials.

Import api.

(** Every request a client built with a token sends, on any script and
    with or without a version, carries the GitHub media type as
    [Accept], the caller's user agent or else the default one of
    [requests] as [User-Agent], and an [Authorization] header that ends
    with the token. *)
Theorem requests_carry_media_type_and_agent (env : Requests) (url token : string)
    (user_agent : option string) (dbg : bool) (w : World)
    (path : string) (data version : option string) (dbg' : option bool)
    (params : option Params)
    (Htoken : token <> "") :
  exists self w0,
    init env url (Some token) user_agent dbg w = (Returns self, w0)
    /\ exists qs,
        sent (snd (get self path data version dbg' params w0))
        = (sent w ++ qs)%list
        /\ Forall (fun q =>
                     h_get (req_headers q) "Accept"
                     = Some "application/vnd.github+json"
                     /\ h_get (req_headers q) "User-Agent"
                        = Some (default (default_user_agent env) user_agent)
                     /\ exists scheme,
                         h_get (req_headers q) "Authorization"
                         = Some (scheme +:+ token))
                  qs.
Proof.
  eexists _, _. split; [apply init_effect; exact Htoken|].
  match goal with
  | |- context [get ?self _ _ _ _ _ ?w0] =>
      destruct (get_frame self path data version dbg' params
                          (built_headers env token user_agent) w0)
        as (_ & (qs & Hqs & Hall) & _)
  end.
  { simpl. apply list_lookup_middle. reflexivity. }
  exists qs. split; [exact Hqs|].
  eapply Forall_impl; [exact Hall|]. intros q ->.
  destruct (built_headers_get env token user_agent) as (Ha & Hb & Hc & _).
  assert (Hkeep : forall k,
             lower k <> lower "X-GitHub-Api-Version" ->
             h_get (on_wire (built_headers env token user_agent) version) k
             = h_get (built_headers env token user_agent) k).
  { intros k Hk. unfold on_wire. destruct version as [v|]; [|reflexivity].
    unfold h_get, h_update. rewrite lookup_insert_ne by congruence. reflexivity. }
  rewrite !Hkeep by discriminate.
  split; [exact Hb|]. split; [exact Hc|]. eexists. exact Ha.
Qed.

Lemma requests_carry_media_type_and_agent_witness :
  exists self w0,
    init env0 API_URL (Some "abc") None false (world_of [page1])
    = (Returns self, w0)
    /\ exists qs,
        sent (snd (get self "repos/o/r/pulls" None (Some "2022-11-28") None
                       (Some []) w0))
        = qs
        /\ Forall (fun q =>
                     h_get (req_headers q) "Accept"
                     = Some "application/vnd.github+json"
                     /\ h_get (req_headers q) "User-Agent"
                        = Some "python-requests/2.31.0"
                     /\ exists scheme,
                         h_get (req_headers q) "Authorization"
                         = Some (scheme +:+ "abc"))
                  qs.
Proof.
  apply (requests_carry_media_type_and_agent env0 API_URL "abc" None false
           (world_of [page1]) "repos/o/r/pulls" None (Some "2022-11-28") None
           (Some [])).
  discriminate.
Defined.

End Credentials.

(** ** Rate limits and the fetch *)

Section Invisible.

Import pull_request github.

Implicit Types (self : GitHub) (w : World) (h : Headers) (ps : Params).

(** A rate-limited response whose nap does not depend on the clock:
    no [X-RateLimit-Reset], and a [Retry-After] that is absent or a
    number that is not negative. *)
Definition steady (r : Response) : bool :=
  rate_limited r
  && match h_get (headers r) "X-RateLimit-Reset" with
     | Some _ => false
     | None =>
         match nap (headers r) 0 with
         | Some _ => true
         | None => false
         end
     end.

(** A script whose rate limits are all steady. *)
Definition calm (script : list Response) : bool :=
  forallb (fun r => steady r || negb (rate_limited r)) script.

(** The script without its rate limits. *)
Definition unlimited (script : list Response) : list Response :=
  List.filter (fun r => negb (rate_limited r)) script.



(** The relation between a run on a calm script and the run on the
    same script without its rate limits. *)
Definition shadows self h w w' : Prop :=
  live self h w /\ live self h w'
  /\ incoming w' = unlimited (incoming w)
  /\ calm (incoming w) = true.





Lemma shadows_length self h w w' :
  shadows self h w w' -> (length (incoming w') <= length (incoming w))%nat.
Proof.
  intros (_ & _ & -> & _). unfold unlimited.
  induction (incoming w) as [|r rs IH]; simpl; [lia|].
  destruct (negb (rate_limited r)); simpl; lia.
Qed.




End Invisible.
